(** * restub: route model, content negotiation and service lifecycle

    A shallow embedding of [restub/route.py] and [restub/stub.py].

    Python values are a small inductive type, exceptions are values of an
    error type and every function that can raise returns a [result].  What
    the program asks of the Python standard library and of the operating
    system (json, minidom, pathlib, re, open, the socket layer) is gathered
    in one record, [Runtime]; the program text itself is embedded as
    written. *)

From Stdlib Require Import Strings.String Strings.Ascii Strings.Byte.
From Stdlib Require Import List ZArith QArith Bool Lia.
From Stdlib Require Import DecimalString DecimalZ.
Import ListNotations.

Local Open Scope string_scope.
Local Open Scope list_scope.
Local Open Scope Z_scope.

Set Warnings "-register-all".

(** ** Python values *)

(** IEEE-754 binary64 bit pattern of a Python [float]. *)
Definition float64 := Z.

(** A [str] is kept as the Rocq string of its UTF-8 code units, so that
    [str.encode()] is the identity on the code units (a text with a lone
    surrogate has no such form and is not a value here); [bytes] are byte
    lists; a [dict] is an association list in insertion order, keyed by
    [str] (JSON objects and header maps). *)
Inductive pyval : Type :=
| PyNone
| PyBool (b : bool)
| PyInt (z : Z)
| PyFloat (f : float64)
| PyStr (s : string)
| PyBytes (b : list byte)
| PyList (xs : list pyval)
| PyTuple (xs : list pyval)
| PyDict (kvs : list (string * pyval)).

Definition dict := list (string * pyval).

(** The exception classes the two modules raise or catch, a class standing
    for its subclasses too, and any other class by its name. *)
Inductive exn : Type :=
| TypeError
| ValueError
| AttributeError
| OverflowError
| OSError (errno : option Z)
| ExpatError
| Other (class : string).

Inductive result (A : Type) : Type :=
| Ok (a : A)
| Raise (e : exn).

Arguments Ok {A} a.
Arguments Raise {A} e.

Definition bind {A B} (c : result A) (k : A -> result B) : result B :=
  match c with
  | Ok a => k a
  | Raise e => Raise e
  end.

Notation "x <- c ;; k" := (bind c (fun x => k))
  (at level 61, c at next level, right associativity).
Notation "' p <- c ;; k" := (bind c (fun p => k))
  (at level 61, p pattern, c at next level, right associativity).

(** [except (E1, E2): raise E] around a computation. *)
Definition reraise {A} (caught : exn -> bool) (e' : exn) (c : result A)
  : result A :=
  match c with
  | Ok a => Ok a
  | Raise e => if caught e then Raise e' else Raise e
  end.

Definition is_AttributeError (e : exn) : bool :=
  match e with AttributeError => true | _ => false end.

Definition is_ValueError (e : exn) : bool :=
  match e with ValueError => true | _ => false end.

Definition is_TypeError_or_ValueError (e : exn) : bool :=
  match e with TypeError | ValueError => true | _ => false end.

Definition is_TypeError (e : exn) : bool :=
  match e with TypeError => true | _ => false end.

Definition is_OSError (e : exn) : bool :=
  match e with OSError _ => true | _ => false end.

Definition is_ExpatError (e : exn) : bool :=
  match e with ExpatError => true | _ => false end.

(** [try: c; return True; except E: return False] *)
Definition succeeds (caught : exn -> bool) (c : result unit) : result bool :=
  match c with
  | Ok _ => Ok true
  | Raise e => if caught e then Ok false else Raise e
  end.

Fixpoint mapM {A B} (f : A -> result B) (l : list A) : result (list B) :=
  match l with
  | [] => Ok []
  | a :: l' => b <- f a ;; bs <- mapM f l' ;; Ok (b :: bs)
  end.

(** Truth value of an object, as [if obj:] tests it. *)
Definition float_is_zero (f : float64) : bool :=
  Z.land f 0x7FFFFFFFFFFFFFFF =? 0.

Definition truthy (v : pyval) : bool :=
  match v with
  | PyNone => false
  | PyBool b => b
  | PyInt z => negb (z =? 0)
  | PyFloat f => negb (float_is_zero f)
  | PyStr s => negb (s =? "")%string
  | PyBytes b => match b with [] => false | _ => true end
  | PyList xs | PyTuple xs => match xs with [] => false | _ => true end
  | PyDict kvs => match kvs with [] => false | _ => true end
  end.

(** [isinstance(v, (list, tuple))] *)
Definition is_list_or_tuple (v : pyval) : bool :=
  match v with PyList _ | PyTuple _ => true | _ => false end.

(** The items of a list or a tuple. *)
Definition items (v : pyval) : list pyval :=
  match v with PyList xs | PyTuple xs => xs | _ => [] end.

(** [v == s] for a [str] constant [s]: only a [str] can be equal to it. *)
Definition py_eq_str (v : pyval) (s : string) : bool :=
  match v with
  | PyStr t => (t =? s)%string
  | _ => false
  end.

(** [v in l] for a list [l] of [str] constants. *)
Definition py_in (v : pyval) (l : list string) : bool :=
  existsb (py_eq_str v) l.

(** [str.encode()] *)
Definition str_encode (s : string) : list byte := list_byte_of_string s.

(** *** Dictionaries *)

Fixpoint dict_get (d : dict) (k : string) : option pyval :=
  match d with
  | [] => None
  | (k', v) :: d' => if (k' =? k)%string then Some v else dict_get d' k
  end.

(** [d[k] = v]: an existing key keeps its place, a new one goes last. *)
Fixpoint dict_set (d : dict) (k : string) (v : pyval) : dict :=
  match d with
  | [] => [(k, v)]
  | (k', v') :: d' =>
      if (k' =? k)%string then (k, v) :: d' else (k', v') :: dict_set d' k v
  end.

(** [d.update(other)] for a dict [other]. *)
Definition dict_merge (d other : dict) : dict :=
  fold_left (fun acc kv => dict_set acc (fst kv) (snd kv)) other d.

(** ** The runtime: standard library and operating system *)

Record Runtime : Type := {
  (** [str.upper], [bytes.upper], [str.strip], [bytes.strip] *)
  str_upper : string -> string;
  bytes_upper : list byte -> list byte;
  str_strip : string -> string;
  bytes_strip : list byte -> list byte;
  (** [json.dumps] of a mapping: the text, or the error it raises *)
  json_dumps : dict -> result string;
  (** [json.loads(s)]: it returns, or raises ([ValueError] for a text that
      is not JSON); the value it returns is not used *)
  json_loads : string -> result unit;
  (** [xml.dom.minidom.parseString(s)]: it returns, or raises
      ([ExpatError] for a text that is not well-formed XML) *)
  xml_parse : string -> result unit;
  (** [open(p, 'rb')] and [f.read()]: the bytes, or the error raised
      ([FileNotFoundError] and [IOError] are [OSError]s) *)
  open_rb : string -> result (list byte);
  (** [Path(p).suffix] *)
  Path_suffix : string -> string;
  (** [Path(p).exists()]: the answer, or the error raised *)
  Path_exists : string -> result bool;
  (** [int(v)] and [float(v)] for a [str], [bytes] or number operand *)
  int_conv : pyval -> result Z;
  float_conv : pyval -> result float64;
  (** [d.update(pairs)] for a list or tuple of key/value pairs *)
  update_pairs : dict -> list pyval -> result dict;
  (** [re.match(pattern, text, re.U)]: whether it finds a match, or the
      error it raises (a pattern that does not compile, a [bytes]
      pattern) *)
  re_match : pyval -> string -> result bool;
  (** [HTTPServer(address, handler)] and [ssl.wrap_socket], at the n-th
      try of the process *)
  http_server : nat -> result unit;
  wrap_socket : nat -> result unit
}.

(** [int(v)] *)
Definition py_int (rt : Runtime) (v : pyval) : result Z :=
  match v with
  | PyInt z => Ok z
  | PyBool b => Ok (if b then 1 else 0)
  | PyStr _ | PyBytes _ | PyFloat _ => int_conv rt v
  | PyNone | PyList _ | PyTuple _ | PyDict _ => Raise TypeError
  end.

(** [float(v)] *)
Definition py_float (rt : Runtime) (v : pyval) : result float64 :=
  match v with
  | PyFloat f => Ok f
  | PyBool b => Ok (if b then 0x3FF0000000000000 else 0)
  | PyInt _ | PyStr _ | PyBytes _ => float_conv rt v
  | PyNone | PyList _ | PyTuple _ | PyDict _ => Raise TypeError
  end.

(** [v.upper()]: only [str] and [bytes] have the attribute. *)
Definition py_upper (rt : Runtime) (v : pyval) : result pyval :=
  match v with
  | PyStr s => Ok (PyStr (str_upper rt s))
  | PyBytes b => Ok (PyBytes (bytes_upper rt b))
  | _ => Raise AttributeError
  end.

(** [v.strip()] *)
Definition py_strip (rt : Runtime) (v : pyval) : result pyval :=
  match v with
  | PyStr s => Ok (PyStr (str_strip rt s))
  | PyBytes b => Ok (PyBytes (bytes_strip rt b))
  | _ => Raise AttributeError
  end.

(** [d.update(v)]: a dict is merged; a list or tuple is read as pairs; a
    non-empty [str] yields one-character items, which are too short; the
    items of [bytes] are integers and numbers are not iterable. *)
Definition dict_update (rt : Runtime) (d : dict) (v : pyval) : result dict :=
  match v with
  | PyDict other => Ok (dict_merge d other)
  | PyList xs | PyTuple xs => update_pairs rt d xs
  | PyStr s => if (s =? "")%string then Ok d else Raise ValueError
  | PyBytes b => match b with [] => Ok d | _ => Raise TypeError end
  | PyNone | PyBool _ | PyInt _ | PyFloat _ => Raise TypeError
  end.

(** ** restub/route.py *)

Module RouteM.

Definition CTYPES : list (string * string) :=
  [ (".htm", "text/html");
    (".html", "text/html");
    (".css", "text/css");
    (".js", "application/javascript");
    (".json", "application/json");
    (".xml", "application/xml");
    (".csv", "text/csv");
    (".txt", "text/plain");
    (".csh", "application/x-csh");
    (".sh", "application/x-sh");
    (".jpg", "image/jpeg");
    (".jpeg", "image/jpeg");
    (".png", "image/png");
    (".gif", "image/gif");
    (".bmp", "image/bmp");
    (".ico", "image/x-icon");
    (".svg", "image/svg+xml");
    (".webp", "image/webp");
    (".tif", "image/tiff");
    (".tiff", "image/tiff");
    (".mp3", "audio/mpeg");
    (".aac", "audio/aac");
    (".mid", "audio/midi");
    (".midi", "audio/midi");
    (".oga", "audio/ogg");
    (".wav", "audio/x-wav");
    (".weba", "audio/webm");
    (".3g2", "audio/3gpp2");
    (".mpeg", "video/mpeg");
    (".ogv", "video/ogg");
    (".avi", "video/x-msvideo");
    (".3gp", "video/3gpp");
    (".webm", "video/webm");
    (".7z", "application/x-7z-compressed");
    (".bz", "application/x-bzip");
    (".bz2", "application/x-bzip2");
    (".jar", "application/java-archive");
    (".tar", "application/x-tar");
    (".zip", "application/zip");
    (".rar", "application/x-rar-compressed");
    (".ttf", "font/ttf");
    (".otf", "font/otf");
    (".woff", "font/woff");
    (".woff2", "font/woff2");
    (".eot", "application/vnd.ms-fontobject");
    (".bin", "application/octet-stream");
    (".swf", "application/x-shockwave-flash");
    (".pdf", "application/pdf") ].

(** [CTYPES.get(key, default)] *)
Fixpoint table_get (t : list (string * string)) (key default : string)
  : string :=
  match t with
  | [] => default
  | (k, v) :: t' => if (k =? key)%string then v else table_get t' key default
  end.

(** [Method.ALLOWED] *)
Definition ALLOWED : list string := ["GET"; "POST"; "PUT"; "DELETE"].
Definition GET : string := "GET".
Definition POST : string := "POST".
Definition PUT : string := "PUT".
Definition DELETE : string := "DELETE".

Record Route : Type := mkRoute {
  method : pyval;
  path : pyval;
  data : option (list byte);
  headers : dict;
  status : Z
}.

Section WithRuntime.

Variable rt : Runtime.

Definition is_json (data : string) : result bool :=
  succeeds is_ValueError (json_loads rt data).

Definition is_xml (data : string) : result bool :=
  succeeds is_ExpatError (xml_parse rt data).

Definition is_html (data : string) : bool :=
  if (String.prefix "<!DOCTYPE html" data || String.prefix "<html" data)%bool
  then true
  else false.

Definition parse_response (obj : pyval)
  : result (list byte * string) :=
  match obj with
  | PyDict d =>
      text <- json_dumps rt d ;;
      Ok (str_encode text, "application/json")
  | PyStr s =>
      match open_rb rt s with
      | Ok data =>
          Ok (data, table_get CTYPES (Path_suffix rt s) "text/plain")
      | Raise e =>
          if is_OSError e then
            ctype <- (json <- is_json s ;;
                      if json then Ok "application/json"
                      else if is_html s then Ok "text/html"
                      else xml <- is_xml s ;;
                           if xml then Ok "application/xml"
                           else Ok "text/plain") ;;
            Ok (str_encode s, ctype)
          else Raise e
      end
  | _ => Raise TypeError
  end.

(** The four steps of [Route.__init__] after the two fields are cleared. *)

Definition init_method (method : pyval) : result pyval :=
  reraise is_AttributeError TypeError
    (u <- py_upper rt method ;;
     if py_in u ALLOWED then py_upper rt method else Raise ValueError).

Definition init_path (path : pyval) : result pyval :=
  reraise is_AttributeError TypeError
    (s <- py_strip rt path ;;
     if truthy s then Ok path else Raise ValueError).

Definition init_data (data : pyval) : result (option (list byte) * dict) :=
  if truthy data then
    '(body, ctype) <- parse_response data ;;
    let h := dict_set [] "Content-type" (PyStr ctype) in
    let h := dict_set h "Content-length" (PyInt (Z.of_nat (length body))) in
    Ok (Some body, h)
  else Ok (None, []).

Definition init_headers (h : dict) (headers : pyval) : result dict :=
  if truthy headers then
    reraise is_TypeError_or_ValueError TypeError (dict_update rt h headers)
  else Ok h.

Definition init_status (status : pyval) : result Z :=
  reraise is_TypeError_or_ValueError TypeError (py_int rt status).

(** [Route(method, path, data, headers, status)] *)
Definition Route_init (method path data headers status : pyval)
  : result Route :=
  m <- init_method method ;;
  p <- init_path path ;;
  '(body, h) <- init_data data ;;
  h' <- init_headers h headers ;;
  st <- init_status status ;;
  Ok (mkRoute m p body h' st).

(** [Route.cast(route)] *)
Definition cast (route : pyval) : result Route :=
  if (truthy route && is_list_or_tuple route)%bool then
    reraise is_ValueError ValueError
      match items route with
      | method :: path :: opts =>
          let data := nth 0 opts PyNone in
          let headers := nth 1 opts PyNone in
          let status := nth 2 opts (PyInt 200) in
          Route_init method path data headers status
      | _ => Raise ValueError
      end
  else Raise TypeError.

End WithRuntime.

End RouteM.

(** ** restub/stub.py *)

Module Stub.

Import RouteM.

(** [errno.EADDRINUSE] (Linux). *)
Definition EADDRINUSE : Z := 98.

(** What the process does to the outside world, in order. *)
Inductive event : Type :=
| EvBind                (* HTTPServer(self.socket, handler) is called *)
| EvWrap                (* wrap_socket(server.socket, ...) is called *)
| EvSleep (seconds : Q) (* time.sleep(seconds) *)
| EvServe               (* the serving thread is started *)
| EvClose.              (* server_close() *)

Record World : Type := mkWorld {
  tries : nat;
  events : list event
}.

Definition emit (e : event) (w : World) : World :=
  mkWorld (tries w) (events w ++ [e]).

Definition next_try (w : World) : World :=
  mkWorld (S (tries w)) (events w).

Record HTTPServer : Type := mkServer { tls : bool }.

Record Service : Type := mkService {
  _server : option HTTPServer;
  _routes : list Route;
  port : Z;
  trace : bool;
  delay : float64;
  crt : pyval;
  key : pyval;
  secure : pyval
}.

(** The keyword arguments of [Service(...)]; [None] is an absent key. *)
Record kwargs : Type := mkKwargs {
  kw_trace : option pyval;
  kw_delay : option pyval;
  kw_secure : option pyval;
  kw_key : option pyval;
  kw_crt : option pyval
}.

(** [kwargs.get(name, default)] *)
Definition kw_get (o : option pyval) (default : pyval) : pyval :=
  match o with Some v => v | None => default end.

Section WithRuntime.

Variable rt : Runtime.

(** [Path(p)] accepts a [str]; [Path(p).exists()] asks the file system. *)
Definition Path_exists_of (p : pyval) : result bool :=
  match p with
  | PyStr s => Path_exists rt s
  | _ => Raise TypeError
  end.

Definition __set_port (port : pyval) : result Z :=
  reraise is_TypeError_or_ValueError TypeError (py_int rt port).

Definition __set_trace (trace : pyval) : bool := truthy trace.

Definition __set_delay (delay : pyval) : result float64 :=
  reraise is_TypeError_or_ValueError TypeError (py_float rt delay).

Definition __set_key (key : pyval) : result pyval :=
  reraise is_TypeError TypeError
    (e <- Path_exists_of key ;; Ok (if e then key else PyBool false)).

Definition __set_crt (crt : pyval) : result pyval :=
  reraise is_TypeError TypeError
    (e <- Path_exists_of crt ;; Ok (if e then crt else PyBool false)).

(** [__set_secure], reading the [crt] and [key] already stored. *)
Definition __set_secure (crt key secure : pyval) : result pyval :=
  if truthy secure then
    if negb (truthy crt) then Raise ValueError
    else if negb (truthy key) then Raise ValueError
    else Ok secure
  else Ok secure.

(** The [routes] argument of [Service.__init__]. *)
Definition init_routes (routes : pyval) : result (list Route) :=
  if truthy routes then
    if negb (is_list_or_tuple routes) then Raise TypeError
    else if forallb is_list_or_tuple (items routes)
         then mapM (cast rt) (items routes)
         else r <- cast rt routes ;; Ok [r]
  else Ok [].

(** [Service(routes, port, **kwargs)] *)
Definition Service_init (routes port : pyval) (kw : kwargs)
  : result Service :=
  rs <- init_routes routes ;;
  p <- __set_port port ;;
  let t := __set_trace (kw_get (kw_trace kw) (PyBool false)) in
  d <- __set_delay (kw_get (kw_delay kw) (PyInt 0)) ;;
  c <- __set_crt (kw_get (kw_crt kw) (PyStr "")) ;;
  k <- __set_key (kw_get (kw_key kw) (PyStr "")) ;;
  s <- __set_secure c k (kw_get (kw_secure kw) (PyBool false)) ;;
  Ok (mkService None rs p t d c k s).

Definition with_routes (s : Service) (rs : list Route) : Service :=
  mkService (_server s) rs (port s) (trace s) (delay s) (crt s) (key s)
    (secure s).

Definition with_server (s : Service) (srv : option HTTPServer) : Service :=
  mkService srv (_routes s) (port s) (trace s) (delay s) (crt s) (key s)
    (secure s).

Definition append_route (s : Service) (r : Route) : Service :=
  with_routes s (_routes s ++ [r]).

Definition get (s : Service) (path data headers status : pyval)
  : result Service :=
  r <- Route_init rt (PyStr GET) path data headers status ;;
  Ok (append_route s r).

Definition post (s : Service) (path data headers status : pyval)
  : result Service :=
  r <- Route_init rt (PyStr POST) path data headers status ;;
  Ok (append_route s r).

Definition put (s : Service) (path headers status : pyval)
  : result Service :=
  r <- Route_init rt (PyStr PUT) path PyNone headers status ;;
  Ok (append_route s r).

Definition delete (s : Service) (path data headers status : pyval)
  : result Service :=
  r <- Route_init rt (PyStr DELETE) path data headers status ;;
  Ok (append_route s r).

(** The test of [resolve] on one route: [re.match] is called only when
    the methods are equal. *)
Definition route_test (route : Route) (m p : string) : result bool :=
  if py_eq_str (method route) m then re_match rt (path route) p
  else Ok false.

(** The loop of [resolve] over [self._routes]. *)
Fixpoint resolve_loop (routes : list Route) (m p : string)
  : result (option Route) :=
  match routes with
  | [] => Ok None
  | route :: rest =>
      found <- route_test route m p ;;
      if found then Ok (Some route) else resolve_loop rest m p
  end.

Definition resolve (s : Service) (m p : string) : result (option Route) :=
  resolve_loop (_routes s) m p.

(** The body of the [try] in [_create]: one server construction. *)
Definition try_server (s : Service) (w : World)
  : result HTTPServer * World :=
  let n := tries w in
  let w := emit EvBind (next_try w) in
  if truthy (secure s) then
    match http_server rt n with
    | Raise e => (Raise e, w)
    | Ok _ =>
        let w := emit EvWrap w in
        match wrap_socket rt n with
        | Raise e => (Raise e, w)
        | Ok _ => (Ok (mkServer true), w)
        end
    end
  else
    match http_server rt n with
    | Raise e => (Raise e, w)
    | Ok _ => (Ok (mkServer false), w)
    end.

(** The [while attempts >= 0] loop of [_create]; [fuel] bounds the number
    of iterations and [None] is returned when it does not suffice.  The
    error raised after the loop, [OSError('Port is already busy or
    operation not permitted')], carries no errno. *)
Fixpoint _create_loop (fuel : nat) (s : Service) (attempts : Z) (w : World)
  : option (result HTTPServer * World) :=
  match fuel with
  | O => None
  | S fuel' =>
      if attempts >=? 0 then
        match try_server s w with
        | (Ok server, w) => Some (Ok server, w)
        | (Raise (OSError (Some errno)), w) =>
            if errno =? EADDRINUSE
            then _create_loop fuel' s (attempts - 1) (emit (EvSleep (1 # 2)) w)
            else Some (Raise (OSError (Some errno)), w)
        | (Raise e, w) => Some (Raise e, w)
        end
      else Some (Raise (OSError None), w)
  end.

(** One iteration more than the [attempts + 1] tries always suffices. *)
Definition _create (s : Service) (attempts : Z) (w : World)
  : option (result HTTPServer * World) :=
  _create_loop (S (Z.to_nat (attempts + 1))) s attempts w.

Definition start (s : Service) (w : World)
  : option (result Service * World) :=
  match _routes s with
  | _ :: _ =>
      match _create s 3 w with
      | None => None
      | Some (Ok server, w) =>
          Some (Ok (with_server s (Some server)), emit EvServe w)
      | Some (Raise e, w) => Some (Raise e, w)
      end
  | [] => Some (Raise ValueError, w)
  end.

Definition stop (s : Service) (w : World) : World :=
  match _server s with
  | Some _ => emit EvClose w
  | None => w
  end.

End WithRuntime.

End Stub.

(** ** A small regular-expression matcher

    The fragment of Python's [re] syntax that route patterns of the
    documentation and the tests use, for ASCII patterns and texts: literal
    characters, [.], [^], [$], character sets such as [[0-9]] and the
    postfix operators [*], [+], [?] on a single character.  Groups,
    alternation, counted repetition and letter escapes are outside it. *)

Module Regex.

Local Open Scope char_scope.

Inductive atom : Type :=
| AChar (c : ascii)
| AAny
| ASet (negated : bool) (ranges : list (ascii * ascii))
| ABol
| AEol.

Inductive quant : Type := One | Star | Plus | Opt.

Definition item : Type := (atom * quant)%type.

Definition newline : ascii := "010".

Definition in_range (c : ascii) (r : ascii * ascii) : bool :=
  ((nat_of_ascii (fst r) <=? nat_of_ascii c)%nat
   && (nat_of_ascii c <=? nat_of_ascii (snd r))%nat)%bool.

(** Whether a one-character atom takes the character [c]. *)
Definition atom_accepts (a : atom) (c : ascii) : bool :=
  match a with
  | AChar c' => Ascii.eqb c' c
  | AAny => negb (Ascii.eqb c newline)
  | ASet negated ranges => xorb negated (existsb (in_range c) ranges)
  | ABol | AEol => false
  end.

(** [$] holds at the end of the text and before a final newline. *)
Definition at_end (s : string) : bool :=
  match s with
  | EmptyString => true
  | String c EmptyString => Ascii.eqb c newline
  | _ => false
  end.

(** [re.match]: the items match a prefix of [s]; [bol] tells whether [s]
    is the whole text. *)
Fixpoint match_items (its : list item) (bol : bool) (s : string) {struct its}
  : bool :=
  match its with
  | [] => true
  | (a, q) :: rest =>
      let one (s : string) : bool :=
        match s with
        | String c s' => atom_accepts a c && match_items rest false s'
        | EmptyString => false
        end in
      let star :=
        fix star (bol : bool) (s : string) {struct s} : bool :=
          (match s with
           | String c s' => atom_accepts a c && star false s'
           | EmptyString => false
           end
           || match_items rest bol s)%bool in
      match a with
      | ABol => bol && match_items rest bol s
      | AEol => at_end s && match_items rest bol s
      | _ =>
          match q with
          | One => one s
          | Opt => one s || match_items rest bol s
          | Star => star bol s
          | Plus =>
              match s with
              | String c s' => atom_accepts a c && star false s'
              | EmptyString => false
              end
          end
      end
  end%bool.

(** The inside of [[...]], after the optional [^]. *)
Fixpoint parse_set (s : string) (acc : list (ascii * ascii))
  : option (list (ascii * ascii) * string) :=
  match s with
  | EmptyString => None
  | String "]" r => match acc with [] => None | _ => Some (rev acc, r) end
  | String "\" _ => None
  | String "[" _ => None
  | String lo (String "-" (String hi r as r1)) =>
      if Ascii.eqb hi "]" then parse_set r1 (("-", "-") :: (lo, lo) :: acc)
      else if (nat_of_ascii lo <=? nat_of_ascii hi)%nat
           then parse_set r ((lo, hi) :: acc)
           else None
  | String c r => parse_set r ((c, c) :: acc)
  end.

Definition is_operator (c : ascii) : bool :=
  existsb (Ascii.eqb c) ["*"; "+"; "?"; "{"].

Definition is_alnum (c : ascii) : bool :=
  let n := nat_of_ascii c in
  ((48 <=? n) && (n <=? 57) || (65 <=? n) && (n <=? 90)
   || (97 <=? n) && (n <=? 122) || (128 <=? n))%nat%bool.

(** One atom at the head of the pattern. *)
Definition parse_atom (s : string) : option (atom * string) :=
  match s with
  | EmptyString => None
  | String "." r => Some (AAny, r)
  | String "^" r => Some (ABol, r)
  | String "$" r => Some (AEol, r)
  | String "[" (String "^" r) =>
      match parse_set r [] with
      | Some (ranges, r') => Some (ASet true ranges, r')
      | None => None
      end
  | String "[" r =>
      match parse_set r [] with
      | Some (ranges, r') => Some (ASet false ranges, r')
      | None => None
      end
  | String "\" (String c r) =>
      if is_alnum c then None else Some (AChar c, r)
  | String c r =>
      if existsb (Ascii.eqb c) ["*"; "+"; "?"; "{"; "}"; "("; ")"; "|"; "\"]
      then None
      else Some (AChar c, r)
  end.

(** The postfix operator after an atom, if any; a second operator (lazy
    or possessive forms) is outside the fragment. *)
Definition parse_quant (a : atom) (s : string) : option (quant * string) :=
  let single (q : quant) (r : string) :=
    match a with
    | ABol | AEol => None
    | _ =>
        match r with
        | String c _ => if is_operator c then None else Some (q, r)
        | EmptyString => Some (q, r)
        end
    end in
  match s with
  | String "*" r => single Star r
  | String "+" r => single Plus r
  | String "?" r => single Opt r
  | String "{" _ => None
  | _ => Some (One, s)
  end.

Fixpoint parse_items (fuel : nat) (s : string) : option (list item) :=
  match fuel with
  | O => None
  | S fuel' =>
      match s with
      | EmptyString => Some []
      | _ =>
          match parse_atom s with
          | None => None
          | Some (a, r) =>
              match parse_quant a r with
              | None => None
              | Some (q, r') =>
                  match parse_items fuel' r' with
                  | None => None
                  | Some its => Some ((a, q) :: its)
                  end
              end
          end
      end
  end.

Definition parse (pattern : string) : option (list item) :=
  parse_items (S (String.length pattern)) pattern.

(** [re.match(pattern, text)] is not [None], for a pattern of the
    fragment; [None] for a pattern outside it. *)
Definition matches (pattern text : string) : option bool :=
  match parse pattern with
  | Some its => Some (match_items its true text)
  | None => None
  end.

End Regex.

(** ** A concrete runtime

    One instance of [Runtime], on which the definitions above can be run:
    ASCII case and whitespace handling, POSIX path suffixes, a file system
    and a JSON and an XML recogniser given by finite tables, and a socket
    layer driven by a function of the try number. *)

Module Demo.

Import RouteM.

Definition upper_char (c : ascii) : ascii :=
  let n := nat_of_ascii c in
  if ((97 <=? n) && (n <=? 122))%nat%bool then ascii_of_nat (n - 32) else c.

Fixpoint upper (s : string) : string :=
  match s with
  | EmptyString => EmptyString
  | String c s' => String (upper_char c) (upper s')
  end.

Definition is_space (c : ascii) : bool :=
  let n := nat_of_ascii c in
  ((n =? 32) || (9 <=? n) && (n <=? 13))%nat%bool.

Fixpoint lstrip (s : string) : string :=
  match s with
  | String c s' => if is_space c then lstrip s' else s
  | EmptyString => EmptyString
  end.

Fixpoint rstrip (s : string) : string :=
  match s with
  | EmptyString => EmptyString
  | String c s' =>
      match rstrip s' with
      | EmptyString => if is_space c then EmptyString else String c EmptyString
      | t => String c t
      end
  end.

Definition strip (s : string) : string := rstrip (lstrip s).

Definition on_bytes (f : string -> string) (b : list byte) : list byte :=
  list_byte_of_string (f (string_of_list_byte b)).

(** The last component of a POSIX path, empty and [.] components dropped. *)
Fixpoint name_from (last cur : string) (s : string) : string :=
  let close :=
    if ((cur =? "") || (cur =? "."))%string%bool then last else cur in
  match s with
  | EmptyString => close
  | String c s' =>
      if Ascii.eqb c "/" then name_from close "" s'
      else name_from last (cur ++ String c "")%string s'
  end.

(** The part of [s] from its last dot on. *)
Fixpoint from_last_dot (s : string) : option string :=
  match s with
  | EmptyString => None
  | String c s' =>
      match from_last_dot s' with
      | Some t => Some t
      | None => if Ascii.eqb c "." then Some s else None
      end
  end.

(** [PurePosixPath(p).suffix]: the dot is neither the first nor the last
    character of the name. *)
Definition posix_suffix (p : string) : string :=
  let name := name_from "" "" p in
  match from_last_dot name with
  | Some t =>
      let n := String.length t in
      if ((1 <? n) && (n <? String.length name))%nat%bool then t else ""
  | None => ""
  end.

Definition files : list (string * list byte) :=
  [ ("/srv/www/logo.png", [x89; x50; x4e; x47]);
    ("/srv/www/README", list_byte_of_string "hello");
    ("/etc/restub/restub.key", list_byte_of_string "KEY");
    ("/etc/restub/restub.crt", list_byte_of_string "CRT") ].

Fixpoint lookup {A} (t : list (string * A)) (k : string) : option A :=
  match t with
  | [] => None
  | (k', v) :: t' => if (k' =? k)%string then Some v else lookup t' k
  end.

Definition has_nul (s : string) : bool :=
  existsb (fun b => Byte.eqb b x00) (list_byte_of_string s).

(** The length of the longest component of a path. *)
Fixpoint longest_component (cur best : nat) (s : string) : nat :=
  match s with
  | EmptyString => Nat.max cur best
  | String c s' =>
      if Ascii.eqb c "/" then longest_component 0 (Nat.max cur best) s'
      else longest_component (S cur) best s'
  end.

(** [open]: a text with a NUL character is refused before the file system
    is asked; a file that is not there is ENOENT. *)
Definition open_file (p : string) : result (list byte) :=
  if has_nul p then Raise ValueError
  else match lookup files p with
       | Some content => Ok content
       | None => Raise (OSError (Some 2))
       end.

(** [Path(p).exists()]: a component of more than 255 characters is
    ENAMETOOLONG, which is raised; a text with a NUL character names
    nothing. *)
Definition exists_path (p : string) : result bool :=
  if (255 <? longest_component 0 0 p)%nat then Raise (OSError (Some 36))
  else if has_nul p then Ok false
  else Ok ((p =? "")%string
           || match lookup files p with Some _ => true | None => false end
          )%bool.

Definition json_texts : list string :=
  ["{}"; "[1, 2, 3]"; "42"; "null"].

Definition xml_texts : list string :=
  ["<a/>"; "<html><a>1</a></html>"; "<note><to>x</to></note>"].

Definition member (s : string) (l : list string) : bool :=
  existsb (String.eqb s) l.

Definition load_json (s : string) : result unit :=
  if member s json_texts then Ok tt else Raise ValueError.

Definition parse_xml (s : string) : result unit :=
  if member s xml_texts then Ok tt else Raise ExpatError.

(** A JSON string literal, for a text of printable ASCII characters. *)
Fixpoint escape (s : string) : result string :=
  match s with
  | EmptyString => Ok EmptyString
  | String c s' =>
      let n := nat_of_ascii c in
      if ((n <? 32) || (126 <? n))%nat%bool
      then Raise (Other "text outside this runtime")
      else
        rest <- escape s' ;;
        if ((n =? 34) || (n =? 92))%nat%bool
        then Ok (String "\" (String c rest))
        else Ok (String c rest)
  end.

Definition quoted (s : string) : result string :=
  body <- escape s ;;
  let q := String (ascii_of_nat 34) EmptyString in
  Ok (q ++ body ++ q)%string.

(** [json.dumps]: None, booleans, integers, texts, lists, tuples and
    mappings; [bytes] are not serialisable. *)
Fixpoint dumps (v : pyval) : result string :=
  match v with
  | PyNone => Ok "null"
  | PyBool b => Ok (if b then "true" else "false")
  | PyInt z => Ok (NilZero.string_of_int (Z.to_int z))
  | PyFloat _ => Raise (Other "float outside this runtime")
  | PyStr s => quoted s
  | PyBytes _ => Raise TypeError
  | PyList xs | PyTuple xs =>
      parts <- (fix go (l : list pyval) : result (list string) :=
                  match l with
                  | [] => Ok []
                  | x :: l' => a <- dumps x ;; b <- go l' ;; Ok (a :: b)
                  end) xs ;;
      Ok ("[" ++ String.concat ", " parts ++ "]")%string
  | PyDict kvs =>
      parts <- (fix go (l : list (string * pyval)) : result (list string) :=
                  match l with
                  | [] => Ok []
                  | (k, x) :: l' =>
                      a <- quoted k ;; b <- dumps x ;; c <- go l' ;;
                      Ok ((a ++ ": " ++ b)%string :: c)
                  end) kvs ;;
      Ok ("{" ++ String.concat ", " parts ++ "}")%string
  end.

Definition to_json (d : dict) : result string := dumps (PyDict d).

(** Decimal digits, with an optional sign. *)
Fixpoint digits (s : string) (acc : Z) : option Z :=
  match s with
  | EmptyString => Some acc
  | String c s' =>
      let n := nat_of_ascii c in
      if ((48 <=? n) && (n <=? 57))%nat%bool
      then digits s' (10 * acc + Z.of_nat (n - 48))
      else None
  end.

Definition parse_int (s : string) : option Z :=
  match strip s with
  | EmptyString => None
  | String "-" (String _ _ as t) => option_map Z.opp (digits t 0)
  | String "+" (String _ _ as t) => digits t 0
  | t => digits t 0
  end.

(** [int(f)] of a binary64: truncation toward zero. *)
Definition float_trunc (f : float64) : result Z :=
  let sign := Z.testbit f 63 in
  let e := Z.land (Z.shiftr f 52) 0x7FF in
  let m := Z.land f 0xFFFFFFFFFFFFF in
  if e =? 0x7FF then
    if m =? 0 then Raise OverflowError else Raise ValueError
  else if e =? 0 then Ok 0
  else
    let mag := Z.shiftl (0x10000000000000 + m) (e - 1075) in
    Ok (if sign then - mag else mag).

(** [float(z)] for the integers a binary64 holds exactly. *)
Definition float_of_int (z : Z) : result float64 :=
  if z =? 0 then Ok 0
  else
    let a := Z.abs z in
    if 0x20000000000000 <=? a then Raise OverflowError
    else
      let e := Z.log2 a in
      let m := Z.shiftl a (52 - e) - 0x10000000000000 in
      let bits := Z.lor (Z.shiftl (e + 1023) 52) m in
      Ok (if z <? 0 then Z.lor (Z.shiftl 1 63) bits else bits).

Definition to_int (v : pyval) : result Z :=
  match v with
  | PyStr s =>
      match parse_int s with Some z => Ok z | None => Raise ValueError end
  | PyBytes b =>
      match parse_int (string_of_list_byte b) with
      | Some z => Ok z
      | None => Raise ValueError
      end
  | PyFloat f => float_trunc f
  | _ => Raise TypeError
  end.

Definition to_float (v : pyval) : result float64 :=
  match v with
  | PyInt z => float_of_int z
  | PyStr s =>
      match parse_int s with
      | Some z => float_of_int z
      | None => Raise ValueError
      end
  | _ => Raise ValueError
  end.

(** [d.update(pairs)] for pairs whose key is a [str]. *)
Fixpoint update_from (d : dict) (pairs : list pyval) : result dict :=
  match pairs with
  | [] => Ok d
  | (PyList [PyStr k; v] | PyTuple [PyStr k; v]) :: rest =>
      update_from (dict_set d k v) rest
  | (PyList [_; _] | PyTuple [_; _]) :: _ => Raise TypeError
  | (PyList _ | PyTuple _ | PyStr _ | PyDict _) :: _ => Raise ValueError
  | _ :: _ => Raise TypeError
  end.

(** [re.match(pattern, text, re.U)]: a pattern outside the fragment is
    reported like one that does not compile; a [bytes] pattern that
    compiles is refused with a value error, the UNICODE flag being for
    text patterns only; any other pattern is a type error. *)
Definition regex_match (pattern : pyval) (text : string) : result bool :=
  match pattern with
  | PyStr p =>
      match Regex.matches p text with
      | Some b => Ok b
      | None => Raise (Other "re.error")
      end
  | PyBytes b =>
      match Regex.matches (string_of_list_byte b) "" with
      | Some _ => Raise ValueError
      | None => Raise (Other "re.error")
      end
  | _ => Raise TypeError
  end.

(** The runtime with a given socket layer. *)
Definition runtime (server wrap : nat -> result unit) : Runtime :=
  {| str_upper := upper;
     bytes_upper := on_bytes upper;
     str_strip := strip;
     bytes_strip := on_bytes strip;
     json_dumps := to_json;
     json_loads := load_json;
     xml_parse := parse_xml;
     open_rb := open_file;
     Path_suffix := posix_suffix;
     Path_exists := exists_path;
     int_conv := to_int;
     float_conv := to_float;
     update_pairs := update_from;
     re_match := regex_match;
     http_server := server;
     wrap_socket := wrap |}.

(** A port that is free. *)
Definition free : nat -> result unit := fun _ => Ok tt.

(** A port that stays busy for the first [n] tries. *)
Definition busy_for (n : nat) : nat -> result unit :=
  fun i =>
    if (i <? n)%nat then Raise (OSError (Some Stub.EADDRINUSE)) else Ok tt.

(** A bind that is refused at try [n] (EACCES), the port being busy
    before. *)
Definition denied_at (n : nat) : nat -> result unit :=
  fun i =>
    if (i <? n)%nat then Raise (OSError (Some Stub.EADDRINUSE))
    else Raise (OSError (Some 13)).

Definition rt : Runtime := runtime free free.

Definition no_kwargs : Stub.kwargs := Stub.mkKwargs None None None None None.

Fixpoint repeat_char (c : ascii) (n : nat) : string :=
  match n with
  | O => EmptyString
  | S n' => String c (repeat_char c n')
  end.

(** A file name of 300 characters, more than a file system takes. *)
Definition long_name : string := repeat_char "a" 300.

(** [Service(routes=['GET', '/$'])] *)
Definition home : Route := mkRoute (PyStr "GET") (PyStr "/$") None [] 200.

Definition service : Stub.Service :=
  Stub.mkService None [home] 8081 false 0 (PyStr "") (PyStr "")
    (PyBool false).

End Demo.

(** ** restub/stub.py: address, scoped use and the request handler *)

Module Lifecycle.

Import RouteM Stub.

(** [%d] of an integer. *)
Definition format_d (z : Z) : string := NilZero.string_of_int (Z.to_int z).

(** The [socket] property. *)
Definition socket (s : Service) : string * Z := ("localhost", port s).

(** The [host] property. *)
Definition host (s : Service) : string :=
  let proto := if truthy (secure s) then "https" else "http" in
  (proto ++ "://" ++ fst (socket s) ++ ":" ++ format_d (snd (socket s)))%string.

(** A block of code run while the service is up: it may change the service
    and the world, and returns a value or raises. *)
Definition block (A : Type) : Type :=
  Service -> World -> result A * Service * World.

Section WithRuntime.

Variable rt : Runtime.

(** [__enter__]: [self.start()], then the service itself. *)
Definition __enter__ (s : Service) (w : World)
  : option (result Service * World) :=
  start rt s w.

(** [__exit__]: [self.stop()]; it returns nothing, so an exception of the
    block goes on. *)
Definition __exit__ (s : Service) (w : World) : World := stop s w.

(** [with self: body] *)
Definition with_self {A} (s : Service) (w : World) (body : block A)
  : option (result A * Service * World) :=
  match __enter__ s w with
  | None => None
  | Some (Raise e, w) => Some (Raise e, s, w)
  | Some (Ok s, w) =>
      let '(r, s, w) := body s w in
      Some (r, s, __exit__ s w)
  end.

(** [__call__]: a function is wrapped so that each call runs inside
    [with self]; anything else is returned as it is. *)
Definition __call__ {X A} (obj : (X -> block A) + pyval)
  : (X -> Service -> World -> option (result A * Service * World)) + pyval :=
  match obj with
  | inl f => inl (fun x s w => with_self s w (f x))
  | inr v => inr v
  end.

End WithRuntime.

End Lifecycle.

Module Handler.

Import RouteM Stub Lifecycle.

(** What the handler needs of a request: the request line, the headers as
    parsed, the body stream ([rfile.read(n)]) and the date string the
    server would give at that time. *)
Record Request : Type := mkRequest {
  command : string;
  request_path : string;
  request_headers : list (string * string);
  rfile : Z -> list byte;
  date : string
}.

(** Calls made on the handler and the server while a request is served. *)
Inductive hevent : Type :=
| HSendError (code : Z)
| HSendResponse (code : Z)
| HSendHeader (name : string) (value : pyval)
| HEndHeaders
| HSleep (seconds : float64)
| HWrite (body : list byte)
| HRead (n : Z)
| HLog (message : string)
| HClose.

(** [Service.log]: the logger is called only when tracing. *)
Definition log (s : Service) (message : string) : list hevent :=
  if trace s then [HLog message] else [].

Definition lower_char (c : ascii) : ascii :=
  let n := nat_of_ascii c in
  if ((65 <=? n) && (n <=? 90))%nat%bool then ascii_of_nat (n + 32) else c.

Fixpoint lower (s : string) : string :=
  match s with
  | EmptyString => EmptyString
  | String c s' => String (lower_char c) (lower s')
  end.

(** [self.headers.get(name)]: the first header of that name, case
    ignored. *)
Fixpoint headers_get (h : list (string * string)) (name : string)
  : option string :=
  match h with
  | [] => None
  | (k, v) :: h' =>
      if (lower k =? lower name)%string then Some v else headers_get h' name
  end.

(** [len(s)]: the number of characters of a [str] held as UTF-8, that is
    of the code units that do not continue a character. *)
Fixpoint py_len (s : string) : nat :=
  match s with
  | EmptyString => O
  | String c s' =>
      let n := nat_of_ascii c in
      if ((128 <=? n) && (n <? 192))%nat%bool then py_len s'
      else S (py_len s')
  end.

Fixpoint spaces (n : nat) : string :=
  match n with
  | O => EmptyString
  | S n' => String " " (spaces n')
  end.

(** ['%-*s' % (width, s)] *)
Definition ljust (width : nat) (s : string) : string :=
  (s ++ spaces (width - py_len s))%string.

(** [max(len(h) for h in l)] *)
Definition max_len (l : list string) : result nat :=
  match l with
  | [] => Raise ValueError
  | h :: t => Ok (fold_left (fun m x => Nat.max m (py_len x)) t (py_len h))
  end.

Fixpoint zip_longest (l1 l2 : list string)
  : list (option string * option string) :=
  match l1, l2 with
  | [], [] => []
  | a :: l1', [] => (Some a, None) :: zip_longest l1' []
  | [], b :: l2' => (None, Some b) :: map (fun b => (None, Some b)) l2'
  | a :: l1', b :: l2' => (Some a, Some b) :: zip_longest l1' l2'
  end.

Definition quote : string := String (ascii_of_nat 34) EmptyString.

(** [chr(9899)], [chr(9898)] and [chr(10503)] *)
Definition black_circle : string := string_of_list_byte [xe2; x9a; xab].
Definition white_circle : string := string_of_list_byte [xe2; x9a; xaa].
Definition arrow : string := string_of_list_byte [xe2; xa4; x87].

Definition version_string : string := "Restub Service".

(** The outcome of serving a request: the result, and the calls that
    returned, in order. *)
Definition io (A : Type) : Type := (result A * list hevent)%type.

Definition io_bind {A B} (c : io A) (k : A -> io B) : io B :=
  match c with
  | (Ok a, evs) => let '(r, evs') := k a in (r, evs ++ evs')
  | (Raise e, evs) => (Raise e, evs)
  end.

Notation "x <~ c ;; k" := (io_bind c (fun x => k))
  (at level 61, c at next level, right associativity).

Section WithRuntime.

Variable rt : Runtime.

(** [str(v)] of a list, tuple, dict, float or bytes value. *)
Variable repr : pyval -> string.

(** The calls on the connection and the clock that raise, with the error:
    [time.sleep] for a delay it refuses, [send_header] for a value that
    latin-1 cannot encode, any call on a connection that broke. *)
Variable raises : hevent -> option exn.

(** One call: it returns and is recorded, or it raises. *)
Definition call (e : hevent) : io unit :=
  match raises e with
  | Some x => (Raise x, [])
  | None => (Ok tt, [e])
  end.

(** Calls in sequence, up to the first that raises. *)
Fixpoint calls (l : list hevent) : io unit :=
  match l with
  | [] => (Ok tt, [])
  | e :: l' => _ <~ call e ;; calls l'
  end.

(** [Service.log] from the handler; the logger does not raise. *)
Definition logged (s : Service) (message : string) : io unit :=
  (Ok tt, log s message).

(** ['%s' % v] *)
Definition py_str (v : pyval) : string :=
  match v with
  | PyStr s => s
  | PyInt z => format_d z
  | PyBool b => if b then "True" else "False"
  | PyNone => "None"
  | _ => repr v
  end.

Definition get_payload (req : Request) : io (option (list byte)) :=
  if existsb (String.eqb (command req)) ["POST"; "PUT"; "DELETE"] then
    match py_int rt (match headers_get (request_headers req) "Content-Length"
                     with Some v => PyStr v | None => PyInt 0 end) with
    | Raise e => (Raise e, [])
    | Ok content_length =>
        if negb (content_length =? 0)
        then _ <~ call (HRead content_length) ;;
             (Ok (Some (rfile req content_length)), [])
        else (Ok None, [])
    end
  else (Ok None, []).

(** One line of the header table of [print_info]. *)
Definition header_line (padding : nat) (row : option string * option string)
  : string :=
  let mark (sign : string) (o : option string) : string :=
    match o with
    | Some h => if negb (h =? "")%string
                then (sign ++ " " ++ h)%string else ""
    | None => ""
    end in
  (ljust (padding - 1) (mark black_circle (fst row)) ++ " "
     ++ mark white_circle (snd row) ++ String (ascii_of_nat 10) "")%string.

Definition print_info (s : Service) (req : Request) (route : Route)
  : io unit :=
  let hres :=
    [("Server: " ++ version_string)%string; ("Date: " ++ date req)%string]
    ++ map (fun kv => (fst kv ++ ": " ++ py_str (snd kv))%string)
         (headers route) in
  let hreq :=
    map (fun kv => (fst kv ++ ": " ++ snd kv)%string) (request_headers req) in
  match max_len hreq with
  | Raise e => (Raise e, [])
  | Ok longest =>
      let padding := (longest + 10)%nat in
      payload <~ get_payload req ;;
      let sline :=
        ("Method " ++ command req ++ " " ++ quote ++ request_path req
           ++ quote ++ ", status: " ++ format_d (status route))%string in
      let cols :=
        (ljust padding "Request headers:" ++ "Response headers:")%string in
      let hdrs :=
        String.concat "" (map (header_line padding)
                            (zip_longest hreq hres)) in
      let shown :=
        match payload with
        | Some ((_ :: _) as b) =>
            (arrow ++ " Payload: " ++ py_str (PyBytes b))%string
        | _ => ""
        end in
      let nl := String (ascii_of_nat 10) "" in
      logged s (sline ++ nl ++ cols ++ nl ++ hdrs ++ shown)%string
  end.

(** The calls that send the answer of a matched route: status, headers in
    stored order, end of headers, the pause, the body if not empty. *)
Definition response (s : Service) (route : Route) : list hevent :=
  [HSendResponse (status route)]
  ++ map (fun kv => HSendHeader (fst kv) (snd kv)) (headers route)
  ++ [HEndHeaders; HSleep (delay s)]
  ++ match data route with
     | Some ((_ :: _) as body) => [HWrite body]
     | _ => []
     end.

(** [proceed], which [do_GET], [do_POST], [do_PUT] and [do_DELETE] call. *)
Definition proceed (s : Service) (req : Request) : io unit :=
  match resolve rt s (command req) (request_path req) with
  | Raise e => (Raise e, [])
  | Ok None =>
      _ <~ calls [HSendError 404; HEndHeaders] ;;
      logged s ("Not found " ++ command req ++ " " ++ quote
                  ++ request_path req ++ quote)%string
  | Ok (Some route) =>
      _ <~ calls (response s route) ;;
      _ <~ print_info s req route ;;
      call HClose
  end.

End WithRuntime.

End Handler.

(** A request and a rendering of values for the examples. *)

Module Samples.

Import RouteM Stub Handler.

Definition show (v : pyval) : string := "<object>".

(** A sound connection: [time.sleep] refuses a negative delay and every
    other call returns. *)
Definition sound (e : hevent) : option exn :=
  match e with
  | HSleep d =>
      let exponent := Z.land (Z.shiftr d 52) 0x7FF in
      let mantissa := Z.land d 0xFFFFFFFFFFFFF in
      if ((exponent =? 0x7FF) && negb (mantissa =? 0))%bool
      then Some ValueError
      else if (Z.testbit d 63 && negb (float_is_zero d))%bool
           then Some ValueError
           else if exponent =? 0x7FF then Some OverflowError
                else None
  | _ => None
  end.

Definition request (cmd path : string) (hdrs : list (string * string))
  : Request :=
  mkRequest cmd path hdrs
    (fun n => firstn (Z.to_nat n) (list_byte_of_string "0123456789"))
    "Thu, 01 Jan 1970 00:00:00 GMT".

(** [Service(routes=[('GET', '/$', 'Hello world'), ('POST', '/$')],
    trace=True)] *)
Definition hello : Route :=
  mkRoute (PyStr "GET") (PyStr "/$") (Some (list_byte_of_string "Hello world"))
    [("Content-type", PyStr "text/plain"); ("Content-length", PyInt 11)] 200.

Definition created : Route :=
  mkRoute (PyStr "POST") (PyStr "/$") None [] 200.

Definition service : Service :=
  mkService None [hello; created] 8081 true 0 (PyStr "") (PyStr "")
    (PyBool false).

End Samples.

(** ** Vocabulary of the statements *)

Module Terms.

Import RouteM Stub.


(** A dict holds each key once. *)
Definition wf_dict (d : dict) : Prop := NoDup (map fst d).

(** The two headers [Route.__init__] computes from a body. *)
Definition auto_headers (body : list byte) (ctype : string) : dict :=
  [ ("Content-type", PyStr ctype);
    ("Content-length", PyInt (Z.of_nat (length body))) ].

(** [resolve] passes over the route: another method, or a pattern that
    does not match the path. *)
Definition skipped (rt : Runtime) (m p : string) (r : Route) : Prop :=
  route_test rt r m p = Ok false.

(** Every call of the list returns. *)
Definition all_return (raises : Handler.hevent -> option exn)
           (l : list Handler.hevent) : Prop :=
  Forall (fun e => raises e = None) l.

(** Outcome and events of the server construction made at try [n]. *)
Definition attempt (rt : Runtime) (s : Service) (n : nat)
  : result HTTPServer :=
  fst (try_server rt s (mkWorld n [])).

Definition attempt_events (rt : Runtime) (s : Service) (n : nat)
  : list event :=
  events (snd (try_server rt s (mkWorld n []))).

(** The construction at try [n] fails because the address is in use. *)
Definition busy (rt : Runtime) (s : Service) (n : nat) : bool :=
  match attempt rt s n with
  | Raise (OSError (Some errno)) => errno =? EADDRINUSE
  | _ => false
  end.

(** [k] failed tries from try [n] on, each followed by the pause. *)
Definition retries (rt : Runtime) (s : Service) (n k : nat) : list event :=
  flat_map
    (fun i => attempt_events rt s (n + i)%nat ++ [EvSleep (1 # 2)])
    (seq 0 k).

(** The keyword argument names a path of the file system. *)
Definition names_existing_path (rt : Runtime) (o : option pyval) : bool :=
  match o with
  | Some (PyStr p) =>
      match Path_exists rt p with
      | Ok true => negb (p =? "")%string
      | _ => false
      end
  | _ => false
  end.

Definition set_secure (kw : kwargs) (o : option pyval) : kwargs :=
  mkKwargs (kw_trace kw) (kw_delay kw) o (kw_key kw) (kw_crt kw).

Definition set_key_crt (kw : kwargs) (k c : option pyval) : kwargs :=
  mkKwargs (kw_trace kw) (kw_delay kw) (kw_secure kw) k c.

Definition with_secure (s : Service) (v : pyval) : Service :=
  mkService (_server s) (_routes s) (port s) (trace s) (delay s) (crt s)
    (key s) v.

End Terms.

Module Notions.

Import RouteM Stub Lifecycle Handler.

(** The method of the route is one of the four allowed texts. *)
Definition allowed_method (r : Route) : Prop :=
  exists m, method r = PyStr m /\ In m ALLOWED.

(** The services a program can reach: constructed, then extended by the
    builders and started. *)
Inductive built (rt : Runtime) : Service -> Prop :=
| built_init routes port kw s :
    Service_init rt routes port kw = Ok s -> built rt s
| built_get s path d h st s' :
    built rt s -> get rt s path d h st = Ok s' -> built rt s'
| built_post s path d h st s' :
    built rt s -> post rt s path d h st = Ok s' -> built rt s'
| built_put s path h st s' :
    built rt s -> put rt s path h st = Ok s' -> built rt s'
| built_delete s path d h st s' :
    built rt s -> delete rt s path d h st = Ok s' -> built rt s'
| built_start s w s' w' :
    built rt s -> start rt s w = Some (Ok s', w') -> built rt s'.

(** One of the four builders added a route for method [m] to [s]. *)
Definition registered (rt : Runtime) (m : string) (s : Service)
           (path d h st : pyval) (s' : Service) : Prop :=
  (m = GET /\ get rt s path d h st = Ok s')
  \/ (m = POST /\ post rt s path d h st = Ok s')
  \/ (m = PUT /\ d = PyNone /\ put rt s path h st = Ok s')
  \/ (m = DELETE /\ delete rt s path d h st = Ok s').

(** Events of the retry loop: a construction, a TLS wrap, the pause. *)
Definition loop_event (e : event) : Prop :=
  e = EvBind \/ e = EvWrap \/ e = EvSleep (1 # 2).

Definition set_trace (s : Service) (b : bool) : Service :=
  mkService (_server s) (_routes s) (port s) b (delay s) (crt s) (key s)
    (secure s).

Definition is_log (e : hevent) : bool :=
  match e with HLog _ => true | _ => false end.

(** The calls other than those to the logger. *)
Definition quiet (evs : list hevent) : list hevent :=
  filter (fun e => negb (is_log e)) evs.

(** The bytes written to the client, the pauses and the body reads. *)
Definition written (evs : list hevent) : list byte :=
  flat_map (fun e => match e with HWrite b => b | _ => [] end) evs.

Definition sleeps (evs : list hevent) : list float64 :=
  flat_map (fun e => match e with HSleep d => [d] | _ => [] end) evs.

Definition reads (evs : list hevent) : list Z :=
  flat_map (fun e => match e with HRead n => [n] | _ => [] end) evs.

(** The calls that announce the answer of a route, and the call that
    writes its body. *)
Definition announce (route : Route) : list hevent :=
  [HSendResponse (status route)]
  ++ map (fun kv => HSendHeader (fst kv) (snd kv)) (headers route)
  ++ [HEndHeaders].

Definition body_calls (route : Route) : list hevent :=
  match data route with
  | Some ((_ :: _) as body) => [HWrite body]
  | _ => []
  end.

(** A call that sends a status line, a header or the error page. *)
Definition heading (e : hevent) : Prop :=
  match e with
  | HSendError _ | HSendResponse _ | HSendHeader _ _ | HEndHeaders => True
  | _ => False
  end.

(** The keys that [other] adds to those of [d], in the order of [other]. *)
Definition new_keys (d other : dict) : list string :=
  filter (fun k => negb (existsb (String.eqb k) (map fst d)))
    (map fst other).

End Notions.

(** ** Properties *)

Import RouteM Stub Terms.
Import Lifecycle Handler Notions.

(** *** Results and dictionaries *)

Lemma reraise_same {A} (caught : exn -> bool) (e : exn) (c : result A) :
  (forall e', caught e' = true -> e' = e) -> reraise caught e c = c.
Proof.
  intros H. destruct c as [a|e']; simpl; [reflexivity|].
  destruct (caught e') eqn:E; [rewrite (H _ E)|]; reflexivity.
Qed.

Lemma bind_ok {A B} (c : result A) (k : A -> result B) (b : B) :
  bind c k = Ok b -> exists a, c = Ok a /\ k a = Ok b.
Proof. destruct c as [a|e]; simpl; [eauto | discriminate]. Qed.

Lemma reraise_ok {A} caught e (c : result A) (a : A) :
  reraise caught e c = Ok a -> c = Ok a.
Proof.
  destruct c as [a'|e']; simpl; [auto|]. destruct (caught e'); discriminate.
Qed.

Lemma dict_get_set_same (d : dict) (k : string) (v : pyval) :
  dict_get (dict_set d k v) k = Some v.
Proof.
  induction d as [|[k' v'] d IH]; simpl.
  - now rewrite String.eqb_refl.
  - destruct (k' =? k)%string eqn:E; simpl.
    + now rewrite String.eqb_refl.
    + now rewrite E.
Qed.

Lemma dict_get_set_other (d : dict) (k k0 : string) (v : pyval) :
  k <> k0 -> dict_get (dict_set d k v) k0 = dict_get d k0.
Proof.
  intros Hne. induction d as [|[k' v'] d IH]; simpl.
  - destruct (String.eqb_spec k k0); [contradiction | reflexivity].
  - destruct (String.eqb_spec k' k) as [->|Hk]; simpl.
    + destruct (String.eqb_spec k k0); [contradiction | reflexivity].
    + destruct (String.eqb_spec k' k0); [reflexivity | exact IH].
Qed.

Lemma dict_get_none (d : dict) (k : string) :
  ~ In k (map fst d) -> dict_get d k = None.
Proof.
  induction d as [|[k' v'] d IH]; simpl; [reflexivity|].
  intros H. destruct (String.eqb_spec k' k) as [->|Hk].
  - exfalso. apply H. now left.
  - apply IH. intros Hin. apply H. now right.
Qed.

(** Merging [other] into [d]: the keys of [other] win. *)
Lemma dict_get_merge (other : dict) :
  wf_dict other ->
  forall (d : dict) (k : string),
    dict_get (dict_merge d other) k =
    match dict_get other k with
    | Some v => Some v
    | None => dict_get d k
    end.
Proof.
  unfold dict_merge, wf_dict.
  induction other as [|[k' v'] other IH]; simpl; intros Hwf d k.
  - reflexivity.
  - inversion Hwf as [|? ? Hnotin Hwf']; subst.
    rewrite IH by assumption.
    destruct (String.eqb_spec k' k) as [->|Hk].
    + rewrite (dict_get_none other k Hnotin). apply dict_get_set_same.
    + now rewrite dict_get_set_other.
Qed.

(** *** The extension table *)



(** *** Content negotiation *)







(** *** Route resolution *)

Lemma route_test_cases (rt : Runtime) (r : Route) (m p : string) :
  (route_test rt r m p = Ok true <->
   method r = PyStr m /\ re_match rt (path r) p = Ok true)
  /\ (skipped rt m p r <->
      method r <> PyStr m \/ re_match rt (path r) p = Ok false)
  /\ (forall e, route_test rt r m p = Raise e <->
                method r = PyStr m /\ re_match rt (path r) p = Raise e).
Proof.
  unfold skipped, route_test, py_eq_str.
  destruct (method r) as [| | | |t| | | |] eqn:Hm;
    try (repeat split; intros; try reflexivity; try discriminate;
         try (left; discriminate);
         match goal with H : _ /\ _ |- _ => destruct H; discriminate end).
  destruct (String.eqb_spec t m) as [->|Hne].
  - repeat split; intros; try tauto; try reflexivity;
      match goal with H : _ \/ _ |- _ => destruct H; congruence end.
  - repeat split; intros; try reflexivity; try discriminate;
      try (left; congruence);
      match goal with H : _ /\ _ |- _ => destruct H; congruence end.
Qed.

Lemma resolve_loop_some (rt : Runtime) (m p : string) (routes : list Route)
      (r : Route) :
  resolve_loop rt routes m p = Ok (Some r) <->
  exists before after,
    routes = before ++ r :: after
    /\ route_test rt r m p = Ok true
    /\ Forall (skipped rt m p) before.
Proof.
  unfold skipped. induction routes as [|r0 rest IH]; simpl.
  - split; [discriminate|]. intros (before & after & H & _).
    destruct before; discriminate.
  - destruct (route_test rt r0 m p) as [[|]|e] eqn:E; simpl.
    + split.
      * intros [= <-]. exists [], rest. simpl. auto.
      * intros (before & after & H & Hr & Hbefore).
        destruct before as [|b before]; simpl in H; injection H as <- ->.
        -- reflexivity.
        -- inversion Hbefore; congruence.
    + rewrite IH. split.
      * intros (before & after & -> & Hr & Hbefore).
        exists (r0 :: before), after. simpl. auto.
      * intros (before & after & H & Hr & Hbefore).
        destruct before as [|b before]; simpl in H; injection H as <- ->.
        -- congruence.
        -- exists before, after. inversion Hbefore. auto.
    + split; [discriminate|].
      intros (before & after & H & Hr & Hbefore).
      destruct before as [|b before]; simpl in H; injection H as <- ->.
      * congruence.
      * inversion Hbefore; congruence.
Qed.

Lemma resolve_loop_none (rt : Runtime) (m p : string) (routes : list Route) :
  resolve_loop rt routes m p = Ok None <-> Forall (skipped rt m p) routes.
Proof.
  unfold skipped. induction routes as [|r0 rest IH]; simpl.
  - split; auto.
  - destruct (route_test rt r0 m p) as [[|]|e] eqn:E; simpl.
    + split; [discriminate|]. intros H. inversion H; congruence.
    + rewrite IH. split; [auto|]. intros H. now inversion H.
    + split; [discriminate|]. intros H. inversion H; congruence.
Qed.

Lemma resolve_loop_raise (rt : Runtime) (m p : string) (routes : list Route)
      (e : exn) :
  resolve_loop rt routes m p = Raise e <->
  exists before r after,
    routes = before ++ r :: after
    /\ Forall (skipped rt m p) before
    /\ route_test rt r m p = Raise e.
Proof.
  unfold skipped. induction routes as [|r0 rest IH]; simpl.
  - split; [discriminate|]. intros (before & r & after & H & _).
    destruct before; discriminate.
  - destruct (route_test rt r0 m p) as [[|]|e0] eqn:E; simpl.
    + split; [discriminate|].
      intros (before & r & after & H & Hbefore & Hr).
      destruct before as [|b before]; simpl in H; injection H as <- ->.
      * congruence.
      * inversion Hbefore; congruence.
    + rewrite IH. split.
      * intros (before & r & after & -> & Hbefore & Hr).
        exists (r0 :: before), r, after. simpl. auto.
      * intros (before & r & after & H & Hbefore & Hr).
        destruct before as [|b before]; simpl in H; injection H as <- ->.
        -- congruence.
        -- exists before, r, after. inversion Hbefore. auto.
    + split.
      * intros [= ->]. exists [], r0, rest. simpl. auto.
      * intros (before & r & after & H & Hbefore & Hr).
        destruct before as [|b before]; simpl in H; injection H as <- ->.
        -- congruence.
        -- inversion Hbefore; congruence.
Qed.

(** C2, as the code has it.  [resolve] scans the routes in the order they
    were added; a route of another method is passed over without its
    pattern being tried, a route of the request method is tried with
    [re.match], which matches from the start of the path.  It returns the
    first route whose method is the request method, compared as strings
    with case, and whose pattern matches; it returns nothing exactly when
    every route is passed over; and when [re.match] raises for a route of
    the request method that is reached, that error is raised.  With the
    routes (GET, /a/$) and (GET, /a/.* ) added in that order, the first
    pattern not matching /a/b and the second matching it, a request for
    /a/b gets the second route. *)
Theorem resolve_first_match :
  (forall (rt : Runtime) (s : Service) (m p : string),
      (forall r,
          resolve rt s m p = Ok (Some r) <->
          exists before after,
            _routes s = before ++ r :: after
            /\ route_test rt r m p = Ok true
            /\ Forall (skipped rt m p) before)
      /\ (resolve rt s m p = Ok None <->
          Forall (skipped rt m p) (_routes s))
      /\ (forall e,
             resolve rt s m p = Raise e <->
             exists before r after,
               _routes s = before ++ r :: after
               /\ Forall (skipped rt m p) before
               /\ route_test rt r m p = Raise e)
      /\ (forall r,
             (route_test rt r m p = Ok true <->
              method r = PyStr m /\ re_match rt (path r) p = Ok true)
             /\ (skipped rt m p r <->
                 method r <> PyStr m \/ re_match rt (path r) p = Ok false)
             /\ (forall e, route_test rt r m p = Raise e <->
                           method r = PyStr m
                           /\ re_match rt (path r) p = Raise e)))
  /\ (forall (rt : Runtime) (s : Service) (first second : Route),
         _routes s = [first; second] ->
         method first = PyStr "GET" -> path first = PyStr "/a/$" ->
         method second = PyStr "GET" -> path second = PyStr "/a/.*" ->
         re_match rt (PyStr "/a/$") "/a/b" = Ok false ->
         re_match rt (PyStr "/a/.*") "/a/b" = Ok true ->
         resolve rt s "GET" "/a/b" = Ok (Some second)
         /\ resolve rt s "get" "/a/b" = Ok None).
Proof.
  split.
  - intros rt s m p. unfold resolve. split; [|split; [|split]].
    + intros r. apply resolve_loop_some.
    + apply resolve_loop_none.
    + intros e. apply resolve_loop_raise.
    + intros r. apply route_test_cases.
  - intros rt s first second Hr Hm1 Hp1 Hm2 Hp2 Hno Hyes.
    unfold resolve. rewrite Hr. simpl. unfold route_test.
    rewrite Hm1, Hm2, Hp1, Hp2. simpl. rewrite Hno, Hyes. simpl. auto.
Qed.

Lemma resolve_first_match_witness :
  exists s first second,
    Service_init Demo.rt
      (PyList [PyTuple [PyStr "GET"; PyStr "/a/$"];
               PyTuple [PyStr "GET"; PyStr "/a/.*"]])
      (PyInt 8081) Demo.no_kwargs = Ok s
    /\ _routes s = [first; second]
    /\ resolve Demo.rt s "GET" "/a/b" = Ok (Some second)
    /\ path second = PyStr "/a/.*".
Proof.
  eexists. eexists. eexists.
  assert (Hs : Service_init Demo.rt
      (PyList [PyTuple [PyStr "GET"; PyStr "/a/$"];
               PyTuple [PyStr "GET"; PyStr "/a/.*"]])
      (PyInt 8081) Demo.no_kwargs = Ok _) by (vm_compute; reflexivity).
  split; [exact Hs|]. split; [reflexivity|].
  destruct resolve_first_match as (_ & Hex).
  split; [|reflexivity].
  match goal with
  | |- resolve _ ?sv _ _ = Ok (Some ?r2) =>
      refine (proj1 (Hex Demo.rt sv _ r2 eq_refl eq_refl eq_refl eq_refl
                       eq_refl eq_refl eq_refl))
  end.
Defined.

(** C2 as stated fails on a route whose pattern [re.match] refuses: a
    bytes path is accepted by the constructor, and a request of the same
    method makes [resolve] raise the value error of [re.match], where the
    claim has it return a route or nothing. *)
Lemma bytes_path_counterexample :
  exists s,
    Service_init Demo.rt
      (PyList [PyStr "GET"; PyBytes (list_byte_of_string "/a")])
      (PyInt 8081) Demo.no_kwargs = Ok s
    /\ resolve Demo.rt s "GET" "/a" = Raise ValueError
    /\ (forall r, resolve Demo.rt s "GET" "/a" <> Ok r).
Proof.
  eexists. split; [vm_compute; reflexivity|].
  split; [reflexivity | discriminate].
Qed.

(** *** Route construction *)

Lemma py_in_str (s : string) (l : list string) :
  py_in (PyStr s) l = true <-> In s l.
Proof.
  unfold py_in. rewrite existsb_exists. simpl. split.
  - intros (x & Hin & Heq). apply String.eqb_eq in Heq. now subst.
  - intros Hin. exists s. split; [assumption | apply String.eqb_refl].
Qed.

Lemma py_in_bytes (b : list byte) (l : list string) :
  py_in (PyBytes b) l = false.
Proof. unfold py_in. induction l; simpl; auto. Qed.

Lemma init_method_str (rt : Runtime) (s : string) :
  init_method rt (PyStr s) =
  if py_in (PyStr (str_upper rt s)) ALLOWED
  then Ok (PyStr (str_upper rt s))
  else Raise ValueError.
Proof.
  unfold init_method, py_upper, bind.
  destruct (py_in (PyStr (str_upper rt s)) ALLOWED); reflexivity.
Qed.

(** What a successful construction went through. *)
Lemma Route_init_ok (rt : Runtime) (m p d h st : pyval) (r : Route) :
  Route_init rt m p d h st = Ok r ->
  exists h0,
    init_method rt m = Ok (method r)
    /\ init_path rt p = Ok (path r)
    /\ init_data rt d = Ok (data r, h0)
    /\ init_headers rt h0 h = Ok (headers r)
    /\ init_status rt st = Ok (status r).
Proof.
  unfold Route_init. intros H.
  apply bind_ok in H as (m' & Hm & H).
  apply bind_ok in H as (p' & Hp & H).
  apply bind_ok in H as ([body h0] & Hd & H).
  apply bind_ok in H as (h' & Hh & H).
  apply bind_ok in H as (st' & Hst & H).
  injection H as <-. simpl. eauto 10.
Qed.

(** C3, as the code has it.  When the payload is supplied and true (not
    empty), the body is what negotiation computes from the payload alone,
    and the headers are the caller's headers merged into Content-type and
    Content-length, the latter being the length of the body in bytes: with
    no caller headers these two are all the headers, and a key of a caller
    dict takes the caller's value.  When the payload is supplied and false
    as a truth value (the empty text or mapping, also 0, False, an empty
    list), the route is the one built without payload: it has no body, and
    its headers are the caller's alone, so neither Content-type nor
    Content-length is there unless the caller gave it. *)
Theorem truthy_payload_headers (rt : Runtime) (m p payload h st : pyval)
        (r : Route) :
  Route_init rt m p payload h st = Ok r ->
  (truthy payload = true ->
   exists body ctype,
     parse_response rt payload = Ok (body, ctype)
     /\ data r = Some body
     /\ init_headers rt (auto_headers body ctype) h = Ok (headers r)
     /\ dict_get (auto_headers body ctype) "Content-type" = Some (PyStr ctype)
     /\ dict_get (auto_headers body ctype) "Content-length" =
        Some (PyInt (Z.of_nat (length body)))
     /\ (truthy h = false -> headers r = auto_headers body ctype)
     /\ (forall caller,
            h = PyDict caller -> wf_dict caller ->
            forall k,
              dict_get (headers r) k =
              match dict_get caller k with
              | Some v => Some v
              | None => dict_get (auto_headers body ctype) k
              end))
  /\ (truthy payload = false ->
      Route_init rt m p PyNone h st = Ok r
      /\ data r = None
      /\ init_headers rt [] h = Ok (headers r)
      /\ (truthy h = false -> headers r = [])
      /\ (forall caller,
             h = PyDict caller -> wf_dict caller ->
             forall k, dict_get (headers r) k = dict_get caller k)).
Proof.
  intros H. split; intros Ht.
  - apply Route_init_ok in H as (h0 & _ & _ & Hd & Hh & _).
    unfold init_data in Hd. rewrite Ht in Hd.
    apply bind_ok in Hd as ([body ctype] & Hparse & Hd).
    injection Hd as Hbody <-. simpl in Hh.
    exists body, ctype. repeat split; auto.
    + intros Hfalse. unfold init_headers in Hh. rewrite Hfalse in Hh.
      now injection Hh as <-.
    + intros caller -> Hwf k. unfold init_headers in Hh.
      destruct (truthy (PyDict caller)) eqn:E.
      * apply reraise_ok in Hh. simpl in Hh. injection Hh as <-.
        now apply dict_get_merge.
      * injection Hh as <-. destruct caller; [reflexivity | discriminate].
  - split.
    + rewrite <- H. unfold Route_init, init_data. now rewrite Ht.
    + apply Route_init_ok in H as (h0 & _ & _ & Hd & Hh & _).
      unfold init_data in Hd. rewrite Ht in Hd.
      injection Hd as Hbody <-. repeat split; auto.
      * intros Hfalse. unfold init_headers in Hh. rewrite Hfalse in Hh.
        now injection Hh as <-.
      * intros caller -> Hwf k. unfold init_headers in Hh.
        destruct (truthy (PyDict caller)) eqn:E.
        -- apply reraise_ok in Hh. simpl in Hh. injection Hh as <-.
           rewrite (dict_get_merge _ Hwf). now destruct (dict_get caller k).
        -- injection Hh as <-. destruct caller; [reflexivity | discriminate].
Qed.

Lemma truthy_payload_headers_witness :
  (exists r,
      Route_init Demo.rt (PyStr "get") (PyStr "/$") (PyStr "plain text")
        (PyDict [("Content-type", PyStr "text/html")]) (PyInt 200) = Ok r
      /\ data r = Some (str_encode "plain text")
      /\ dict_get (headers r) "Content-type" = Some (PyStr "text/html")
      /\ dict_get (headers r) "Content-length" = Some (PyInt 10))
  /\ (exists r,
         Route_init Demo.rt (PyStr "get") (PyStr "/$") (PyStr "")
           (PyDict [("Content-type", PyStr "text/html")]) (PyInt 200) = Ok r
         /\ data r = None
         /\ dict_get (headers r) "Content-type" = Some (PyStr "text/html")
         /\ dict_get (headers r) "Content-length" = None).
Proof.
  assert (Hwf : wf_dict [("Content-type", PyStr "text/html")]).
  { repeat constructor. simpl. tauto. }
  split.
  - eexists. split; [vm_compute; reflexivity|].
    destruct (proj1 (truthy_payload_headers Demo.rt (PyStr "get") (PyStr "/$")
                       (PyStr "plain text")
                       (PyDict [("Content-type", PyStr "text/html")])
                       (PyInt 200) _ eq_refl) eq_refl)
      as (body & ctype & Hparse & Hdata & _ & _ & _ & _ & Hcaller).
    vm_compute in Hparse. injection Hparse as <- <-.
    split; [exact Hdata|].
    split; rewrite (Hcaller _ eq_refl Hwf); reflexivity.
  - eexists. split; [vm_compute; reflexivity|].
    destruct (proj2 (truthy_payload_headers Demo.rt (PyStr "get") (PyStr "/$")
                       (PyStr "")
                       (PyDict [("Content-type", PyStr "text/html")])
                       (PyInt 200) _ eq_refl) eq_refl)
      as (_ & Hdata & _ & _ & Hcaller).
    split; [exact Hdata|].
    split; rewrite (Hcaller _ eq_refl Hwf); reflexivity.
Defined.

(** C3 as stated fails on an empty payload: an empty mapping is supplied,
    yet the route gets no body and neither header. *)
Lemma empty_payload_counterexample :
  PyDict [] <> PyNone
  /\ exists r,
       Route_init Demo.rt (PyStr "GET") (PyStr "/$") (PyDict []) PyNone
         (PyInt 200) = Ok r
       /\ data r = None
       /\ dict_get (headers r) "Content-type" = None
       /\ dict_get (headers r) "Content-length" = None.
Proof.
  split; [discriminate|]. eexists. vm_compute. repeat split.
Qed.

(** C5, as the code has it.  A text method whose upper-case form is one of
    GET, POST, PUT, DELETE is accepted and the upper-case form is stored;
    any other text raises a value error; so do bytes, which have an
    [upper] but never equal a text; a value without [upper] raises a type
    error. *)
Theorem method_validation (rt : Runtime) :
  (forall (s : string) (p d h st : pyval),
      In (str_upper rt s) ALLOWED ->
      init_method rt (PyStr s) = Ok (PyStr (str_upper rt s))
      /\ forall r, Route_init rt (PyStr s) p d h st = Ok r ->
                   method r = PyStr (str_upper rt s))
  /\ (forall (s : string) (p d h st : pyval),
         ~ In (str_upper rt s) ALLOWED ->
         Route_init rt (PyStr s) p d h st = Raise ValueError)
  /\ (forall (b : list byte) (p d h st : pyval),
         Route_init rt (PyBytes b) p d h st = Raise ValueError)
  /\ (forall m p d h st : pyval,
         (forall s, m <> PyStr s) -> (forall b, m <> PyBytes b) ->
         Route_init rt m p d h st = Raise TypeError).
Proof.
  split; [|split; [|split]].
  - intros s p d h st Hin.
    assert (Hm : init_method rt (PyStr s) = Ok (PyStr (str_upper rt s))).
    { rewrite init_method_str.
      now rewrite (proj2 (py_in_str _ _) Hin). }
    split; [exact Hm|]. intros r Hr.
    apply Route_init_ok in Hr as (_ & Hm' & _). congruence.
  - intros s p d h st Hnot. unfold Route_init. rewrite init_method_str.
    destruct (py_in (PyStr (str_upper rt s)) ALLOWED) eqn:E; [|reflexivity].
    apply py_in_str in E. contradiction.
  - intros b p d h st. unfold Route_init, init_method, py_upper.
    cbn [bind]. rewrite py_in_bytes. reflexivity.
  - intros m p d h st Hs Hb. unfold Route_init, init_method.
    destruct m; try reflexivity; [elim (Hs s) | elim (Hb b)]; reflexivity.
Qed.

Lemma method_validation_witness :
  (exists r,
      Route_init Demo.rt (PyStr "GeT") (PyStr "/$") PyNone PyNone
        (PyInt 200) = Ok r
      /\ method r = PyStr "GET")
  /\ Route_init Demo.rt (PyStr "PATCH") (PyStr "/$") PyNone PyNone
       (PyInt 200) = Raise ValueError
  /\ Route_init Demo.rt PyNone (PyStr "/$") PyNone PyNone (PyInt 200) =
     Raise TypeError.
Proof.
  destruct (method_validation Demo.rt) as (Hok & Hbad & _ & Hother).
  split; [|split].
  - eexists. split; [vm_compute; reflexivity|].
    refine (proj2 (Hok "GeT" (PyStr "/$") PyNone PyNone (PyInt 200) _)
              _ eq_refl).
    vm_compute. tauto.
  - apply Hbad. vm_compute. intuition discriminate.
  - apply Hother; intros; discriminate.
Defined.

(** C5 as stated fails on a bytes method: it is not text, and the
    construction raises a value error, not a type error. *)
Lemma bytes_method_counterexample :
  (forall s, PyBytes (list_byte_of_string "GET") <> PyStr s)
  /\ Route_init Demo.rt (PyBytes (list_byte_of_string "GET")) (PyStr "/$")
       PyNone PyNone (PyInt 200) = Raise ValueError
  /\ Route_init Demo.rt (PyBytes (list_byte_of_string "GET")) (PyStr "/$")
       PyNone PyNone (PyInt 200) <> Raise TypeError.
Proof.
  split; [discriminate|]. split; [reflexivity | discriminate].
Qed.

(** *** The secondary constructor *)

Lemma cast_forwards (rt : Runtime) (v : pyval) (m p : pyval)
      (opts : list pyval) :
  is_list_or_tuple v = true ->
  items v = m :: p :: opts ->
  cast rt v =
  Route_init rt m p (nth 0 opts PyNone) (nth 1 opts PyNone)
    (nth 2 opts (PyInt 200)).
Proof.
  intros Hshape Hitems. unfold cast. rewrite Hshape, Hitems.
  replace (truthy v) with true
    by (destruct v; try discriminate; simpl in *; now subst).
  simpl. apply reraise_same. intros e He. destruct e; try discriminate.
  reflexivity.
Qed.

(** C6, as the code has it.  A list or tuple of exactly one element raises
    a value error; an empty list or tuple raises a type error, as does any
    argument that is not a list or a tuple; a list or tuple of two to five
    elements is passed to the primary constructor, the missing payload and
    headers being None and the missing status 200. *)
Theorem cast_shapes (rt : Runtime) :
  (forall x : pyval,
      cast rt (PyList [x]) = Raise ValueError
      /\ cast rt (PyTuple [x]) = Raise ValueError)
  /\ (cast rt (PyList []) = Raise TypeError
      /\ cast rt (PyTuple []) = Raise TypeError)
  /\ (forall v : pyval,
         is_list_or_tuple v = false -> cast rt v = Raise TypeError)
  /\ (forall v : pyval,
         is_list_or_tuple v = true ->
         (2 <= length (items v) <= 5)%nat ->
         cast rt v =
         Route_init rt (nth 0 (items v) PyNone) (nth 1 (items v) PyNone)
           (nth 2 (items v) PyNone) (nth 3 (items v) PyNone)
           (nth 4 (items v) (PyInt 200))).
Proof.
  split; [|split; [|split]].
  - intros x. split; reflexivity.
  - split; reflexivity.
  - intros v Hv. unfold cast. rewrite Hv, andb_false_r. reflexivity.
  - intros v Hv [Hlo _].
    destruct (items v) as [|m [|p opts]] eqn:E; simpl in Hlo; try lia.
    now apply cast_forwards.
Qed.

Lemma cast_shapes_witness :
  cast Demo.rt (PyFloat 0x400921FB54442D18) = Raise TypeError
  /\ exists r,
       cast Demo.rt
         (PyTuple [PyStr "post"; PyStr "/items/$"; PyStr "[1, 2, 3]"]) = Ok r
       /\ dict_get (headers r) "Content-type" =
          Some (PyStr "application/json")
       /\ status r = 200.
Proof.
  destruct (cast_shapes Demo.rt) as (_ & _ & Hother & Hforward).
  split; [apply Hother; reflexivity|].
  eexists. rewrite Hforward; [|reflexivity | simpl; lia].
  vm_compute. repeat split.
Defined.

(** C6 as stated fails on the empty list: it has fewer than two elements,
    and [cast] raises a type error, not a value error. *)
Lemma empty_list_counterexample :
  is_list_or_tuple (PyList []) = true
  /\ (length (items (PyList [])) < 2)%nat
  /\ cast Demo.rt (PyList []) = Raise TypeError
  /\ cast Demo.rt (PyList []) <> Raise ValueError.
Proof.
  repeat split; [simpl; lia | discriminate].
Qed.

(** C10. [cast] of a list or tuple of more than five elements is [cast]
    of its first five: the elements after the fifth are ignored, and the
    route built is the same whenever the first five build one. *)
Theorem cast_ignores_extra (rt : Runtime) (xs : list pyval) :
  (5 < length xs)%nat ->
  cast rt (PyList xs) = cast rt (PyList (firstn 5 xs))
  /\ cast rt (PyTuple xs) = cast rt (PyTuple (firstn 5 xs))
  /\ (forall r, cast rt (PyList (firstn 5 xs)) = Ok r ->
                cast rt (PyList xs) = Ok r)
  /\ (forall r, cast rt (PyTuple (firstn 5 xs)) = Ok r ->
                cast rt (PyTuple xs) = Ok r).
Proof.
  intros Hlen.
  destruct xs as [|m [|p [|d [|h [|st [|x xs]]]]]]; simpl in Hlen; try lia.
  assert (HL : cast rt (PyList (m :: p :: d :: h :: st :: x :: xs)) =
               cast rt (PyList (firstn 5 (m :: p :: d :: h :: st :: x :: xs))))
    by reflexivity.
  assert (HT : cast rt (PyTuple (m :: p :: d :: h :: st :: x :: xs)) =
               cast rt (PyTuple (firstn 5 (m :: p :: d :: h :: st :: x :: xs))))
    by reflexivity.
  repeat split; auto; intros r Hr; congruence.
Qed.

Lemma cast_ignores_extra_witness :
  exists r,
    cast Demo.rt
      (PyList [PyStr "GET"; PyStr "/$"; PyStr "Internal error"; PyNone;
               PyInt 500; PyStr "ignored"; PyInt 7]) = Ok r
    /\ status r = 500
    /\ data r = Some (str_encode "Internal error").
Proof.
  eexists.
  rewrite (proj1 (cast_ignores_extra Demo.rt
    [PyStr "GET"; PyStr "/$"; PyStr "Internal error"; PyNone;
     PyInt 500; PyStr "ignored"; PyInt 7] ltac:(simpl; lia))).
  vm_compute. repeat split.
Defined.

(** *** The builders *)

Lemma builder_ok (rt : Runtime) (s s' : Service) (m path d h st : pyval) :
  (r <- Route_init rt m path d h st ;; Ok (append_route s r)) = Ok s' ->
  exists r, Route_init rt m path d h st = Ok r
            /\ _routes s' = _routes s ++ [r].
Proof.
  intros H. apply bind_ok in H as (r & Hr & H). injection H as <-.
  exists r. split; [assumption | reflexivity].
Qed.

Lemma init_data_truthy (rt : Runtime) (d : pyval) (body : option (list byte))
      (h0 : dict) :
  truthy d = true -> init_data rt d = Ok (body, h0) -> body <> None.
Proof.
  unfold init_data. intros ->. intros H.
  apply bind_ok in H as ([b c] & _ & H). injection H as <- _. discriminate.
Qed.

(** C9. A route added with [put] has no body and no computed header: its
    headers are the caller's, merged into an empty mapping.  The builders
    [get], [post] and [delete] take a payload, and the route they add has
    a body whenever the payload is true. *)
Theorem put_has_no_body (rt : Runtime) (s : Service) :
  (forall (path h st : pyval) (s' : Service),
      put rt s path h st = Ok s' ->
      exists r,
        _routes s' = _routes s ++ [r]
        /\ data r = None
        /\ init_headers rt [] h = Ok (headers r)
        /\ (truthy h = false -> headers r = []))
  /\ (forall (path d h st : pyval) (s' : Service),
         truthy d = true ->
         get rt s path d h st = Ok s'
         \/ post rt s path d h st = Ok s'
         \/ delete rt s path d h st = Ok s' ->
         exists r, _routes s' = _routes s ++ [r] /\ data r <> None).
Proof.
  split.
  - intros path h st s' H. unfold put in H.
    apply builder_ok in H as (r & Hr & Hroutes).
    apply Route_init_ok in Hr as (h0 & _ & _ & Hd & Hh & _).
    unfold init_data in Hd. simpl in Hd. injection Hd as Hdata <-.
    exists r. repeat split; auto.
    intros Hfalse. unfold init_headers in Hh. rewrite Hfalse in Hh.
    now injection Hh as <-.
  - intros path d h st s' Ht H.
    assert (Hex : exists m r, Route_init rt m path d h st = Ok r
                              /\ _routes s' = _routes s ++ [r]).
    { destruct H as [H|[H|H]]; apply builder_ok in H as (r & ? & ?); eauto. }
    destruct Hex as (m & r & Hr & Hroutes).
    apply Route_init_ok in Hr as (h0 & _ & _ & Hd & _).
    exists r. split; [assumption|]. eapply init_data_truthy; eauto.
Qed.

Lemma put_has_no_body_witness :
  exists s s' r,
    Service_init Demo.rt PyNone (PyInt 8081) Demo.no_kwargs = Ok s
    /\ put Demo.rt s (PyStr "/item/[0-9]+/$")
         (PyDict [("X-HEADER", PyStr "VALUE")]) (PyInt 204) = Ok s'
    /\ _routes s' = _routes s ++ [r]
    /\ data r = None
    /\ headers r = [("X-HEADER", PyStr "VALUE")].
Proof.
  eexists. eexists.
  assert (Hput : put Demo.rt
            (mkService None [] 8081 false 0 (PyStr "") (PyStr "")
               (PyBool false))
            (PyStr "/item/[0-9]+/$")
            (PyDict [("X-HEADER", PyStr "VALUE")]) (PyInt 204) = Ok _)
    by (vm_compute; reflexivity).
  destruct (proj1 (put_has_no_body Demo.rt _) _ _ _ _ Hput)
    as (r & Hroutes & Hdata & Hh & _).
  exists r. split; [vm_compute; reflexivity|]. split; [exact Hput|].
  split; [exact Hroutes|]. split; [exact Hdata|].
  vm_compute in Hh. vm_compute. congruence.
Defined.

(** *** Starting the service *)

(** C7. With no route, [start] raises the value error for a missing
    configuration and leaves the world as it was: no server is
    constructed, no socket bound. *)
Theorem start_without_routes (rt : Runtime) (s : Service) (w : World) :
  _routes s = [] ->
  start rt s w = Some (Raise ValueError, w).
Proof. intros H. unfold start. now rewrite H. Qed.

Lemma start_without_routes_witness :
  exists s,
    Service_init Demo.rt PyNone (PyInt 8081) Demo.no_kwargs = Ok s
    /\ start Demo.rt s (mkWorld 0 []) = Some (Raise ValueError, mkWorld 0 []).
Proof.
  eexists. split; [vm_compute; reflexivity|].
  apply start_without_routes. reflexivity.
Defined.

Lemma try_server_split (rt : Runtime) (s : Service) (w : World) :
  try_server rt s w =
  (attempt rt s (tries w),
   mkWorld (S (tries w)) (events w ++ attempt_events rt s (tries w))).
Proof.
  unfold attempt, attempt_events, try_server, emit, next_try. simpl.
  destruct (truthy (secure s)), (http_server rt (tries w)); simpl;
    try reflexivity.
  destruct (wrap_socket rt (tries w)); simpl; now rewrite <- app_assoc.
Qed.

Lemma retries_S (rt : Runtime) (s : Service) (n k : nat) :
  retries rt s n (S k) =
  (attempt_events rt s n ++ [EvSleep (1 # 2)]) ++ retries rt s (S n) k.
Proof.
  unfold retries. rewrite <- cons_seq. simpl. rewrite Nat.add_0_r.
  f_equal. rewrite <- seq_shift, flat_map_concat_map, map_map.
  rewrite <- flat_map_concat_map. apply flat_map_ext.
  intros i. now rewrite Nat.add_succ_r.
Qed.

Lemma busy_true (rt : Runtime) (s : Service) (n : nat) :
  busy rt s n = true ->
  attempt rt s n = Raise (OSError (Some EADDRINUSE)).
Proof.
  unfold busy. destruct (attempt rt s n) as [?|[| | | |[e|]| |]];
    try discriminate.
  intros H. apply Z.eqb_eq in H. now subst.
Qed.

(** [k] busy tries, then one that is not: the loop stops there. *)
Lemma create_loop_retry (rt : Runtime) (s : Service) :
  forall (k fuel : nat) (attempts : Z) (w : World),
    Z.of_nat k <= attempts ->
    (k < fuel)%nat ->
    (forall i, (i < k)%nat -> busy rt s (tries w + i) = true) ->
    busy rt s (tries w + k) = false ->
    _create_loop rt fuel s attempts w =
    Some (attempt rt s (tries w + k),
          mkWorld (tries w + k + 1)
            (events w ++ retries rt s (tries w) k
               ++ attempt_events rt s (tries w + k))).
Proof.
  induction k as [|k IH]; intros fuel attempts w Hatt Hfuel Hbusy Hfree;
    (destruct fuel as [|fuel]; [lia|]); simpl.
  - replace (attempts >=? 0) with true by lia.
    rewrite try_server_split. rewrite Nat.add_0_r in *.
    replace (tries w + 1)%nat with (S (tries w)) by lia.
    unfold busy in Hfree.
    destruct (attempt rt s (tries w)) as [?|[| | | |[e|]| |]]; try reflexivity.
    now rewrite Hfree.
  - replace (attempts >=? 0) with true by lia.
    rewrite try_server_split.
    rewrite (busy_true rt s (tries w)).
    2:{ rewrite <- (Nat.add_0_r (tries w)). apply Hbusy. lia. }
    rewrite Z.eqb_refl.
    rewrite IH; try lia; simpl.
    + rewrite retries_S. repeat rewrite <- app_assoc.
      replace (tries w + S k)%nat with (S (tries w + k)) by lia.
      reflexivity.
    + intros i Hi. replace (S (tries w + i)) with (tries w + S i)%nat by lia.
      apply Hbusy. lia.
    + now replace (S (tries w + k)) with (tries w + S k)%nat by lia.
Qed.

(** Every try busy: the loop ends with the counter below zero. *)
Lemma create_loop_exhaust (rt : Runtime) (s : Service) :
  forall (k fuel : nat) (attempts : Z) (w : World),
    attempts = Z.of_nat k - 1 ->
    (k < fuel)%nat ->
    (forall i, (i < k)%nat -> busy rt s (tries w + i) = true) ->
    _create_loop rt fuel s attempts w =
    Some (Raise (OSError None),
          mkWorld (tries w + k) (events w ++ retries rt s (tries w) k)).
Proof.
  induction k as [|k IH]; intros fuel attempts w Hatt Hfuel Hbusy;
    (destruct fuel as [|fuel]; [lia|]); simpl.
  - replace (attempts >=? 0) with false by lia.
    destruct w as [n ev]. simpl. now rewrite Nat.add_0_r, app_nil_r.
  - replace (attempts >=? 0) with true by lia.
    rewrite try_server_split.
    rewrite (busy_true rt s (tries w)).
    2:{ rewrite <- (Nat.add_0_r (tries w)). apply Hbusy. lia. }
    rewrite Z.eqb_refl.
    rewrite (IH fuel (attempts - 1)); try lia; simpl.
    + rewrite retries_S. repeat rewrite <- app_assoc.
      replace (tries w + S k)%nat with (S (tries w + k)) by lia.
      reflexivity.
    + intros i Hi. replace (S (tries w + i)) with (tries w + S i)%nat by lia.
      apply Hbusy. lia.
Qed.

(** C4. [start] on a service with routes always returns, after at most
    four server constructions.  While the construction fails with
    address-in-use it is repeated, with a pause of half a second after
    each failure, up to three more times; the first construction that
    succeeds ends the loop with the service running, and the first one
    that fails otherwise ends it with that very error; four
    address-in-use failures end it with the final OS error. *)
Theorem start_retry_policy (rt : Runtime) (s : Service) (w : World) :
  _routes s <> [] ->
  (exists r w',
      start rt s w = Some (r, w') /\ (tries w' <= tries w + 4)%nat)
  /\ (forall k : nat,
         (k <= 3)%nat ->
         (forall i, (i < k)%nat -> busy rt s (tries w + i) = true) ->
         busy rt s (tries w + k) = false ->
         start rt s w =
         Some (match attempt rt s (tries w + k) with
               | Ok server => Ok (with_server s (Some server))
               | Raise e => Raise e
               end,
               mkWorld (tries w + k + 1)
                 (events w ++ retries rt s (tries w) k
                    ++ attempt_events rt s (tries w + k)
                    ++ match attempt rt s (tries w + k) with
                       | Ok _ => [EvServe]
                       | Raise _ => []
                       end)))
  /\ ((forall i, (i < 4)%nat -> busy rt s (tries w + i) = true) ->
      start rt s w =
      Some (Raise (OSError None),
            mkWorld (tries w + 4) (events w ++ retries rt s (tries w) 4))).
Proof.
  intros Hroutes.
  assert (Hstop : forall k : nat,
    (k <= 3)%nat ->
    (forall i, (i < k)%nat -> busy rt s (tries w + i) = true) ->
    busy rt s (tries w + k) = false ->
    start rt s w =
    Some (match attempt rt s (tries w + k) with
          | Ok server => Ok (with_server s (Some server))
          | Raise e => Raise e
          end,
          mkWorld (tries w + k + 1)
            (events w ++ retries rt s (tries w) k
               ++ attempt_events rt s (tries w + k)
               ++ match attempt rt s (tries w + k) with
                  | Ok _ => [EvServe]
                  | Raise _ => []
                  end))).
  { intros k Hk Hbusy Hfree. unfold start, _create.
    destruct (_routes s) as [|r0 rs]; [contradiction|].
    rewrite (create_loop_retry rt s k) by (auto; simpl; lia).
    destruct (attempt rt s (tries w + k)); unfold emit; simpl.
    - now repeat rewrite <- app_assoc.
    - now rewrite app_nil_r. }
  assert (Hall : (forall i, (i < 4)%nat -> busy rt s (tries w + i) = true) ->
    start rt s w =
    Some (Raise (OSError None),
          mkWorld (tries w + 4) (events w ++ retries rt s (tries w) 4))).
  { intros Hbusy. unfold start, _create.
    destruct (_routes s) as [|r0 rs]; [contradiction|].
    now rewrite (create_loop_exhaust rt s 4) by (auto; simpl; lia). }
  split; [|split; assumption].
  assert (Hlt : forall k j, (j < S k)%nat -> j = k \/ (j < k)%nat) by lia.
  destruct (busy rt s (tries w + 0)) eqn:B0.
  2:{ eexists. eexists. split; [apply (Hstop 0%nat); auto; lia|simpl; lia]. }
  destruct (busy rt s (tries w + 1)) eqn:B1.
  2:{ eexists. eexists. split; [apply (Hstop 1%nat); auto|simpl; lia].
      intros i Hi. assert (i = 0)%nat as -> by lia. assumption. }
  destruct (busy rt s (tries w + 2)) eqn:B2.
  2:{ eexists. eexists. split; [apply (Hstop 2%nat); auto|simpl; lia].
      intros i Hi.
      destruct (Hlt _ _ Hi) as [->|Hi1]; [assumption|].
      assert (i = 0)%nat as -> by lia. assumption. }
  assert (H3 : forall i, (i < 3)%nat -> busy rt s (tries w + i) = true).
  { intros i Hi.
    destruct (Hlt _ _ Hi) as [->|Hi2]; [assumption|].
    destruct (Hlt _ _ Hi2) as [->|Hi1]; [assumption|].
    assert (i = 0)%nat as -> by lia. assumption. }
  destruct (busy rt s (tries w + 3)) eqn:B3.
  2:{ eexists. eexists. split; [apply (Hstop 3%nat); auto|simpl; lia]. }
  eexists. eexists. split; [apply Hall|simpl; lia].
  intros i Hi. destruct (Hlt _ _ Hi) as [->|Hi3]; auto.
Qed.

Lemma start_retry_policy_witness :
  Service_init Demo.rt (PyList [PyStr "GET"; PyStr "/$"]) (PyInt 8081)
    Demo.no_kwargs = Ok Demo.service
  /\ start (Demo.runtime (Demo.busy_for 2) Demo.free) Demo.service
       (mkWorld 0 []) =
     Some (Ok (with_server Demo.service (Some (mkServer false))),
           mkWorld 3 [EvBind; EvSleep (1 # 2); EvBind; EvSleep (1 # 2);
                      EvBind; EvServe])
  /\ start (Demo.runtime (Demo.denied_at 1) Demo.free) Demo.service
       (mkWorld 0 []) =
     Some (Raise (OSError (Some 13)),
           mkWorld 2 [EvBind; EvSleep (1 # 2); EvBind])
  /\ start (Demo.runtime (Demo.busy_for 9) Demo.free) Demo.service
       (mkWorld 0 []) =
     Some (Raise (OSError None),
           mkWorld 4 [EvBind; EvSleep (1 # 2); EvBind; EvSleep (1 # 2);
                      EvBind; EvSleep (1 # 2); EvBind; EvSleep (1 # 2)]).
Proof.
  assert (Hroutes : _routes Demo.service <> []) by discriminate.
  split; [reflexivity|]. split; [|split].
  - pose proof (proj1 (proj2 (start_retry_policy
        (Demo.runtime (Demo.busy_for 2) Demo.free) Demo.service
        (mkWorld 0 []) Hroutes)) 2%nat) as P.
    rewrite P; [reflexivity | lia | | reflexivity].
    intros [|[|i]] Hi; [reflexivity | reflexivity | lia].
  - pose proof (proj1 (proj2 (start_retry_policy
        (Demo.runtime (Demo.denied_at 1) Demo.free) Demo.service
        (mkWorld 0 []) Hroutes)) 1%nat) as P.
    rewrite P; [reflexivity | lia | | reflexivity].
    intros [|i] Hi; [reflexivity | lia].
  - pose proof (proj2 (proj2 (start_retry_policy
        (Demo.runtime (Demo.busy_for 9) Demo.free) Demo.service
        (mkWorld 0 []) Hroutes))) as P.
    rewrite P; [reflexivity|].
    intros [|[|[|[|i]]]] Hi; try reflexivity. lia.
Defined.

(** *** Secure mode *)

Lemma set_key_stored (rt : Runtime) (o : option pyval) (k : pyval) :
  __set_key rt (kw_get o (PyStr "")) = Ok k ->
  truthy k = names_existing_path rt o.
Proof.
  unfold __set_key, Path_exists_of, names_existing_path, kw_get.
  destruct o as [[| | | |p| | | |]|]; simpl; try discriminate.
  - destruct (Path_exists rt p) as [[|]|e]; simpl.
    + intros [= <-]. reflexivity.
    + intros [= <-]. reflexivity.
    + destruct (is_TypeError e); discriminate.
  - destruct (Path_exists rt "") as [[|]|e]; simpl.
    + intros [= <-]. reflexivity.
    + intros [= <-]. reflexivity.
    + destruct (is_TypeError e); discriminate.
Qed.

Lemma set_crt_stored (rt : Runtime) (o : option pyval) (c : pyval) :
  __set_crt rt (kw_get o (PyStr "")) = Ok c ->
  truthy c = names_existing_path rt o.
Proof. apply set_key_stored. Qed.

Lemma set_key_text (rt : Runtime) (p : string) (b : bool) :
  Path_exists rt p = Ok b -> exists k, __set_key rt (PyStr p) = Ok k.
Proof. unfold __set_key. simpl. intros ->. simpl. eauto. Qed.

Lemma set_crt_text (rt : Runtime) (p : string) (b : bool) :
  Path_exists rt p = Ok b -> exists c, __set_crt rt (PyStr p) = Ok c.
Proof. unfold __set_crt. simpl. intros ->. simpl. eauto. Qed.

Lemma set_key_raise (rt : Runtime) (p : string) (e : exn) :
  Path_exists rt p = Raise e -> __set_key rt (PyStr p) = Raise e.
Proof.
  unfold __set_key. simpl. intros ->. simpl. now destruct e.
Qed.

Lemma set_crt_raise (rt : Runtime) (p : string) (e : exn) :
  Path_exists rt p = Raise e -> __set_crt rt (PyStr p) = Raise e.
Proof. apply set_key_raise. Qed.

(** C8, as the code has it.  Let the other arguments be such that
    construction succeeds without [secure], the existence test of the key
    and certificate paths answering.  With [secure] true, construction
    succeeds when both [key] and [crt] name existing paths and raises the
    value error for a bad configuration otherwise, whether the path is
    absent, empty or not found.  With [secure] false or absent, absent or
    not-found key and crt paths raise nothing: construction succeeds
    whatever texts they are, provided the existence test answers for
    them.  An error raised by the existence test of a key or crt text is
    raised by the construction, whether [secure] is set or not. *)
Theorem secure_needs_key_and_crt (rt : Runtime) (routes port : pyval)
        (kw : kwargs) :
  (forall (s0 : Service) (sec : pyval),
      Service_init rt routes port (set_secure kw None) = Ok s0 ->
      truthy sec = true ->
      Service_init rt routes port (set_secure kw (Some sec)) =
      if (names_existing_path rt (kw_key kw)
          && names_existing_path rt (kw_crt kw))%bool
      then Ok (with_secure s0 sec)
      else Raise ValueError)
  /\ (forall (s0 : Service) (k c : string) (bk bc : bool),
         truthy (kw_get (kw_secure kw) (PyBool false)) = false ->
         Path_exists rt k = Ok bk -> Path_exists rt c = Ok bc ->
         Service_init rt routes port (set_key_crt kw None None) = Ok s0 ->
         exists s1,
           Service_init rt routes port
             (set_key_crt kw (Some (PyStr k)) (Some (PyStr c))) = Ok s1
           /\ _routes s1 = _routes s0
           /\ secure s1 = secure s0)
  /\ (forall (rs : list Route) (p : Z) (d : float64) (e : exn),
         init_routes rt routes = Ok rs ->
         __set_port rt port = Ok p ->
         __set_delay rt (kw_get (kw_delay kw) (PyInt 0)) = Ok d ->
         (forall c, kw_crt kw = Some (PyStr c) ->
                    Path_exists rt c = Raise e ->
                    Service_init rt routes port kw = Raise e)
         /\ (forall c0 k,
                __set_crt rt (kw_get (kw_crt kw) (PyStr "")) = Ok c0 ->
                kw_key kw = Some (PyStr k) ->
                Path_exists rt k = Raise e ->
                Service_init rt routes port kw = Raise e)).
Proof.
  split; [|split].
  - intros s0 sec H Hsec. unfold Service_init in *.
    cbn [set_secure kw_crt kw_key kw_secure kw_trace kw_delay] in *.
    destruct (init_routes rt routes) as [rs|]; [|discriminate].
    destruct (__set_port rt port) as [p|]; [|discriminate].
    cbn [bind] in *.
    destruct (__set_delay rt _) as [d|]; [|discriminate]. cbn [bind] in *.
    destruct (__set_crt rt _) as [c|] eqn:Ec; [|discriminate].
    destruct (__set_key rt _) as [k|] eqn:Ek; [|discriminate].
    cbn [bind kw_get] in *. injection H as <-.
    rewrite <- (set_key_stored _ _ _ Ek), <- (set_crt_stored _ _ _ Ec).
    unfold __set_secure. rewrite Hsec.
    destruct (truthy c), (truthy k); reflexivity.
  - intros s0 k c bk bc Hsec Hk Hc H. unfold Service_init in *.
    cbn [set_key_crt kw_crt kw_key kw_secure kw_trace kw_delay kw_get] in *.
    destruct (init_routes rt routes) as [rs|]; [|discriminate].
    destruct (__set_port rt port) as [p|]; [|discriminate].
    cbn [bind] in *.
    destruct (__set_delay rt _) as [d|]; [|discriminate].
    destruct (set_crt_text rt c bc Hc) as (c' & ->).
    destruct (set_key_text rt k bk Hk) as (k' & ->).
    destruct (__set_crt rt (PyStr "")) as [c0|]; [|discriminate].
    destruct (__set_key rt (PyStr "")) as [k0|]; [|discriminate].
    cbn [bind] in *. unfold __set_secure in *. rewrite Hsec in *.
    injection H as <-. eexists. split; [reflexivity|]. split; reflexivity.
  - intros rs p d e Hrs Hp Hd. unfold Service_init.
    rewrite Hrs, Hp. cbn [bind]. rewrite Hd. cbn [bind]. split.
    + intros c -> Hc. cbn [kw_get]. now rewrite (set_crt_raise rt c e Hc).
    + intros c0 k -> -> Hk. cbn [bind kw_get].
      now rewrite (set_key_raise rt k e Hk).
Qed.

Lemma secure_needs_key_and_crt_witness :
  Service_init Demo.rt (PyList [PyStr "GET"; PyStr "/$"]) (PyInt 8081)
    (mkKwargs None None (Some (PyBool true))
       (Some (PyStr "/etc/restub/restub.key")) None) = Raise ValueError
  /\ Service_init Demo.rt (PyList [PyStr "GET"; PyStr "/$"]) (PyInt 8081)
       (mkKwargs None None (Some (PyBool true))
          (Some (PyStr "/etc/restub/restub.key"))
          (Some (PyStr "/no/such.crt"))) = Raise ValueError
  /\ (exists s,
         Service_init Demo.rt (PyList [PyStr "GET"; PyStr "/$"]) (PyInt 8081)
           (mkKwargs None None (Some (PyBool true))
              (Some (PyStr "/etc/restub/restub.key"))
              (Some (PyStr "/etc/restub/restub.crt"))) = Ok s
         /\ secure s = PyBool true)
  /\ (exists s,
         Service_init Demo.rt (PyList [PyStr "GET"; PyStr "/$"]) (PyInt 8081)
           (mkKwargs None None (Some (PyBool false))
              (Some (PyStr "/no/such.key")) (Some (PyStr "/no/such.crt")))
         = Ok s)
  /\ Service_init Demo.rt (PyList [PyStr "GET"; PyStr "/$"]) (PyInt 8081)
       (mkKwargs None None (Some (PyBool true))
          (Some (PyStr "/etc/restub/restub.key"))
          (Some (PyStr Demo.long_name))) = Raise (OSError (Some 36)).
Proof.
  split; [|split; [|split; [|split]]].
  - apply (proj1 (secure_needs_key_and_crt Demo.rt
      (PyList [PyStr "GET"; PyStr "/$"]) (PyInt 8081)
      (mkKwargs None None None (Some (PyStr "/etc/restub/restub.key")) None))
      _ (PyBool true) eq_refl eq_refl).
  - apply (proj1 (secure_needs_key_and_crt Demo.rt
      (PyList [PyStr "GET"; PyStr "/$"]) (PyInt 8081)
      (mkKwargs None None None (Some (PyStr "/etc/restub/restub.key"))
         (Some (PyStr "/no/such.crt"))))
      _ (PyBool true) eq_refl eq_refl).
  - eexists. split.
    + apply (proj1 (secure_needs_key_and_crt Demo.rt
        (PyList [PyStr "GET"; PyStr "/$"]) (PyInt 8081)
        (mkKwargs None None None (Some (PyStr "/etc/restub/restub.key"))
           (Some (PyStr "/etc/restub/restub.crt"))))
        _ (PyBool true) eq_refl eq_refl).
    + reflexivity.
  - destruct (proj1 (proj2 (secure_needs_key_and_crt Demo.rt
      (PyList [PyStr "GET"; PyStr "/$"]) (PyInt 8081)
      (mkKwargs None None (Some (PyBool false)) None None)))
      _ "/no/such.key" "/no/such.crt" false false eq_refl eq_refl eq_refl
      eq_refl) as (s1 & H & _).
    exists s1. exact H.
  - refine (proj1 (proj2 (proj2 (secure_needs_key_and_crt Demo.rt
      (PyList [PyStr "GET"; PyStr "/$"]) (PyInt 8081)
      (mkKwargs None None (Some (PyBool true))
         (Some (PyStr "/etc/restub/restub.key"))
         (Some (PyStr Demo.long_name)))))
      _ _ _ (OSError (Some 36)) eq_refl eq_refl eq_refl)
      Demo.long_name eq_refl _).
    vm_compute. reflexivity.
Defined.

(** C8 as stated fails on a key whose name the file system refuses: with
    [secure] false the path does not exist, yet construction raises the
    OS error of the existence test; with [secure] true it raises that
    error and not the value error of a bad configuration. *)
Lemma long_name_counterexample :
  Service_init Demo.rt (PyList [PyStr "GET"; PyStr "/$"]) (PyInt 8081)
    (mkKwargs None None (Some (PyBool false))
       (Some (PyStr Demo.long_name)) None) = Raise (OSError (Some 36))
  /\ Service_init Demo.rt (PyList [PyStr "GET"; PyStr "/$"]) (PyInt 8081)
       (mkKwargs None None (Some (PyBool true))
          (Some (PyStr Demo.long_name)) None) = Raise (OSError (Some 36))
  /\ Service_init Demo.rt (PyList [PyStr "GET"; PyStr "/$"]) (PyInt 8081)
       (mkKwargs None None (Some (PyBool true))
          (Some (PyStr Demo.long_name)) None) <> Raise ValueError.
Proof.
  split; [vm_compute; reflexivity|].
  split; [vm_compute; reflexivity|]. vm_compute. discriminate.
Qed.

(** *** The unit tests of the repository, on the concrete runtime *)

Example test_method_case_insensitive :
  exists r, cast Demo.rt (PyList [PyStr "GeT"; PyStr "/$"]) = Ok r
            /\ method r = PyStr GET.
Proof. eexists. split; reflexivity. Qed.

Example test_method_invalid_type :
  cast Demo.rt (PyList [PyNone; PyStr "/$"]) = Raise TypeError.
Proof. reflexivity. Qed.

Example test_method_invalid_value :
  cast Demo.rt (PyList [PyStr "UNKNOWN_METHOD_NAME"; PyStr "/$"]) =
  Raise ValueError.
Proof. reflexivity. Qed.

Example test_path_invalid_type :
  cast Demo.rt (PyList [PyStr GET; PyNone]) = Raise TypeError.
Proof. reflexivity. Qed.

Example test_path_empty :
  cast Demo.rt (PyList [PyStr GET; PyStr " "]) = Raise ValueError.
Proof. reflexivity. Qed.

Example test_data_type_none :
  exists r, cast Demo.rt (PyList [PyStr GET; PyStr "/$"; PyNone]) = Ok r
            /\ data r = None /\ dict_get (headers r) "Content-type" = None.
Proof. eexists. repeat split. Qed.

Example test_data_type_invalid :
  cast Demo.rt (PyList [PyStr GET; PyStr "/$"; PyInt 1]) = Raise TypeError.
Proof. reflexivity. Qed.

Example test_data_ctype_plain :
  exists r, cast Demo.rt (PyList [PyStr GET; PyStr "/$"; PyStr "Lorem ipsum"])
            = Ok r
            /\ dict_get (headers r) "Content-type" = Some (PyStr "text/plain")
            /\ dict_get (headers r) "Content-length" = Some (PyInt 11).
Proof. eexists. repeat split. Qed.

Example test_data_ctype_override :
  exists r,
    cast Demo.rt
      (PyList [PyStr GET; PyStr "/$"; PyStr "test text";
               PyDict [("Content-type", PyStr "text/html")]]) = Ok r
    /\ dict_get (headers r) "Content-type" = Some (PyStr "text/html").
Proof. eexists. repeat split. Qed.

Example test_headers_invalid :
  cast Demo.rt
    (PyList [PyStr GET; PyStr "/$"; PyNone; PyFloat 0x40091EB851EB851F]) =
  Raise TypeError.
Proof. reflexivity. Qed.

Example test_status_override :
  exists r,
    cast Demo.rt (PyList [PyStr GET; PyStr "/$"; PyNone; PyNone; PyInt 404])
    = Ok r /\ status r = 404.
Proof. eexists. split; reflexivity. Qed.

Example test_status_invalid_type :
  cast Demo.rt
    (PyList [PyStr GET; PyStr "/$"; PyNone; PyNone; PyStr "status"]) =
  Raise TypeError.
Proof. reflexivity. Qed.

Example test_port_invalid :
  Service_init Demo.rt (PyList [PyStr GET; PyStr "/$"]) PyNone
    Demo.no_kwargs = Raise TypeError.
Proof. reflexivity. Qed.

Example test_delay_invalid :
  Service_init Demo.rt (PyList [PyStr GET; PyStr "/$"]) (PyInt 8081)
    (mkKwargs None (Some PyNone) None None None) = Raise TypeError.
Proof. reflexivity. Qed.

Example test_route_regex :
  exists s r,
    Service_init Demo.rt (PyList [PyStr GET; PyStr "/user/[0-9]+/$"])
      (PyInt 8081) Demo.no_kwargs = Ok s
    /\ resolve Demo.rt s "GET" "/user/777/" = Ok (Some r)
    /\ resolve Demo.rt s "GET" "/unknown_path" = Ok None.
Proof. eexists. eexists. repeat split. Qed.


(** ** Further properties of the route model *)

Lemma init_method_allowed (rt : Runtime) (m u : pyval) :
  init_method rt m = Ok u -> exists a, u = PyStr a /\ In a ALLOWED.
Proof.
  destruct m; try discriminate.
  rewrite init_method_str.
  destruct (py_in (PyStr (str_upper rt s)) ALLOWED) eqn:E; [|discriminate].
  intros [= <-]. apply py_in_str in E. eauto.
Qed.

Lemma cast_ok (rt : Runtime) (v : pyval) (r : Route) :
  cast rt v = Ok r ->
  exists m p opts,
    items v = m :: p :: opts
    /\ Route_init rt m p (nth 0 opts PyNone) (nth 1 opts PyNone)
         (nth 2 opts (PyInt 200)) = Ok r.
Proof.
  unfold cast. destruct (truthy v && is_list_or_tuple v)%bool; [|discriminate].
  intros H. apply reraise_ok in H.
  destruct (items v) as [|m [|p opts]]; try discriminate. eauto.
Qed.

Lemma Route_init_allowed (rt : Runtime) (m p d h st : pyval) (r : Route) :
  Route_init rt m p d h st = Ok r -> allowed_method r.
Proof.
  intros H. apply Route_init_ok in H as (_ & Hm & _).
  now apply init_method_allowed in Hm.
Qed.

(** X1. Whatever the arguments, a route that got constructed, directly or
    through [cast], holds as method one of the texts GET, POST, PUT,
    DELETE. *)
Theorem constructed_method_allowed (rt : Runtime) :
  (forall (m p d h st : pyval) (r : Route),
      Route_init rt m p d h st = Ok r -> allowed_method r)
  /\ (forall (v : pyval) (r : Route), cast rt v = Ok r -> allowed_method r).
Proof.
  split.
  - intros m p d h st r. apply Route_init_allowed.
  - intros v r H. apply cast_ok in H as (m & p & opts & _ & H).
    eapply Route_init_allowed; eauto.
Qed.

Lemma constructed_method_allowed_witness :
  exists r,
    cast Demo.rt (PyTuple [PyStr "dElEtE"; PyStr "/item/[0-9]+/$"]) = Ok r
    /\ method r = PyStr "DELETE".
Proof.
  eexists. split; [vm_compute; reflexivity|].
  destruct (proj2 (constructed_method_allowed Demo.rt)
              (PyTuple [PyStr "dElEtE"; PyStr "/item/[0-9]+/$"]) _ eq_refl)
    as (m & Hm & _).
  vm_compute in Hm. vm_compute. exact eq_refl.
Defined.

(** X2. Once the method is accepted, a text path whose stripped form is
    empty raises a value error; a text path that is accepted is stored as
    given, not stripped; a path that is neither text nor bytes raises a
    type error. *)
Theorem path_validation (rt : Runtime) (m d h st : pyval) :
  (exists u, init_method rt m = Ok u) ->
  (forall s : string,
      str_strip rt s = "" ->
      Route_init rt m (PyStr s) d h st = Raise ValueError)
  /\ (forall (s : string) (r : Route),
         Route_init rt m (PyStr s) d h st = Ok r ->
         path r = PyStr s /\ str_strip rt s <> "")
  /\ (forall p : pyval,
         (forall s, p <> PyStr s) -> (forall b, p <> PyBytes b) ->
         Route_init rt m p d h st = Raise TypeError).
Proof.
  intros (u & Hu). split; [|split].
  - intros s Hs. unfold Route_init. rewrite Hu. cbn [bind].
    unfold init_path, py_strip. cbn [bind]. rewrite Hs. reflexivity.
  - intros s r H. apply Route_init_ok in H as (_ & _ & Hp & _).
    unfold init_path, py_strip in Hp. cbn [bind] in Hp.
    destruct (str_strip rt s) eqn:E; simpl in Hp; [discriminate|].
    injection Hp as <-. split; [reflexivity | discriminate].
  - intros p Hs Hb. unfold Route_init. rewrite Hu. cbn [bind].
    destruct p; try reflexivity; [elim (Hs s) | elim (Hb b)]; reflexivity.
Qed.

Lemma path_validation_witness :
  Route_init Demo.rt (PyStr "GET") (PyStr "   ") PyNone PyNone (PyInt 200) =
    Raise ValueError
  /\ (exists r,
         Route_init Demo.rt (PyStr "GET") (PyStr " /a/ ") PyNone PyNone
           (PyInt 200) = Ok r
         /\ path r = PyStr " /a/ ")
  /\ Route_init Demo.rt (PyStr "GET") (PyInt 7) PyNone PyNone (PyInt 200) =
     Raise TypeError.
Proof.
  destruct (path_validation Demo.rt (PyStr "GET") PyNone PyNone (PyInt 200)
              (ex_intro _ (PyStr "GET") eq_refl)) as (Hempty & Hkept & Hother).
  split; [|split].
  - apply Hempty. reflexivity.
  - eexists. split; [vm_compute; reflexivity|].
    apply (Hkept " /a/ " _ eq_refl).
  - apply Hother; intros; discriminate.
Defined.

(** X3. A payload and headers that are false as truth values (None, 0,
    False, the empty text, list or mapping) are not looked at: the
    construction does what it does with None in their place, whatever
    their type. *)
Theorem falsy_arguments_ignored (rt : Runtime) (m p d h st : pyval) :
  truthy d = false -> truthy h = false ->
  Route_init rt m p d h st = Route_init rt m p PyNone PyNone st.
Proof.
  intros Hd Hh. unfold Route_init, init_data, init_headers.
  rewrite Hd, Hh. reflexivity.
Qed.

Lemma falsy_arguments_ignored_witness :
  exists r,
    Route_init Demo.rt (PyStr "GET") (PyStr "/$") (PyInt 0) (PyBool false)
      (PyInt 200) = Ok r
    /\ data r = None /\ headers r = [].
Proof.
  eexists.
  rewrite (falsy_arguments_ignored Demo.rt (PyStr "GET") (PyStr "/$")
             (PyInt 0) (PyBool false) (PyInt 200) eq_refl eq_refl).
  vm_compute. repeat split.
Defined.

(** X4. When method, path and payload are accepted, headers and status
    never make the construction raise a value error: a type or value error
    of [dict.update] on true headers, or of [int] on the status, is raised
    as a type error, and headers that are a true number (a non-zero
    integer or float, True) raise a type error. *)
Theorem headers_status_errors (rt : Runtime) (m p d h st : pyval)
        (mm pp : pyval) (body : option (list byte)) (h0 : dict) :
  init_method rt m = Ok mm ->
  init_path rt p = Ok pp ->
  init_data rt d = Ok (body, h0) ->
  Route_init rt m p d h st <> Raise ValueError
  /\ (forall e,
         truthy h = true -> dict_update rt h0 h = Raise e ->
         e = TypeError \/ e = ValueError ->
         Route_init rt m p d h st = Raise TypeError)
  /\ (forall h' e,
         init_headers rt h0 h = Ok h' -> py_int rt st = Raise e ->
         e = TypeError \/ e = ValueError ->
         Route_init rt m p d h st = Raise TypeError)
  /\ (truthy h = true ->
      (exists z, h = PyInt z) \/ (exists f, h = PyFloat f)
      \/ (exists b, h = PyBool b) ->
      Route_init rt m p d h st = Raise TypeError).
Proof.
  intros Hm Hp Hd.
  unfold Route_init. rewrite Hm, Hp, Hd. cbn [bind].
  split; [|split; [|split]].
  - unfold init_headers, init_status.
    destruct (truthy h).
    + destruct (dict_update rt h0 h) as [h'|[]]; simpl; try discriminate;
        destruct (py_int rt st) as [z|[]]; simpl; discriminate.
    + simpl. destruct (py_int rt st) as [z|[]]; simpl; discriminate.
  - intros e Ht He Hcls. unfold init_headers. rewrite Ht, He.
    destruct Hcls as [->| ->]; reflexivity.
  - intros h' e Hh He Hcls. rewrite Hh. cbn [bind].
    unfold init_status. rewrite He. destruct Hcls as [->| ->]; reflexivity.
  - intros Ht Hnum. unfold init_headers. rewrite Ht.
    destruct Hnum as [(z & ->)|[(f & ->)|(b & ->)]]; reflexivity.
Qed.

Lemma headers_status_errors_witness :
  Route_init Demo.rt (PyStr "GET") (PyStr "/$") PyNone PyNone
    (PyStr "status") = Raise TypeError
  /\ Route_init Demo.rt (PyStr "GET") (PyStr "/$") PyNone
       (PyFloat 0x40091EB851EB851F) (PyInt 200) = Raise TypeError.
Proof.
  split.
  - apply (proj1 (proj2 (proj2 (headers_status_errors Demo.rt (PyStr "GET")
        (PyStr "/$") PyNone PyNone (PyStr "status") _ _ _ _
        eq_refl eq_refl eq_refl))) [] ValueError eq_refl eq_refl).
    right. reflexivity.
  - apply (proj2 (proj2 (proj2 (headers_status_errors Demo.rt (PyStr "GET")
        (PyStr "/$") PyNone (PyFloat 0x40091EB851EB851F) (PyInt 200) _ _ _ _
        eq_refl eq_refl eq_refl))) eq_refl).
    right. left. eexists. reflexivity.
Defined.

Lemma table_get_in (t : list (string * string)) (k d : string) :
  table_get t k d = d \/ In (table_get t k d) (map snd t).
Proof.
  induction t as [|[k' v'] t IH]; simpl; [now left|].
  destruct (k' =? k)%string; [right; now left|].
  destruct IH; [now left | right; now right].
Qed.

(** X5. Every content type the negotiator returns is one of the types of
    the extension table. *)
Theorem negotiated_type_in_table (rt : Runtime) (obj : pyval)
        (body : list byte) (ctype : string) :
  parse_response rt obj = Ok (body, ctype) ->
  In ctype (map snd CTYPES).
Proof.
  assert (Hjson : In "application/json" (map snd CTYPES))
    by (simpl; do 4 right; now left).
  assert (Hhtml : In "text/html" (map snd CTYPES)) by (simpl; now left).
  assert (Hxml : In "application/xml" (map snd CTYPES))
    by (simpl; do 5 right; now left).
  assert (Hplain : In "text/plain" (map snd CTYPES))
    by (simpl; do 7 right; now left).
  unfold parse_response. destruct obj; try discriminate.
  - destruct (open_rb rt s) as [content|e].
    + intros H.
      assert (E : table_get CTYPES (Path_suffix rt s) "text/plain" = ctype)
        by congruence.
      rewrite <- E.
      destruct (table_get_in CTYPES (Path_suffix rt s) "text/plain")
        as [E'|H']; [rewrite E'|]; assumption.
    + destruct (is_OSError e); [|discriminate].
      unfold is_json, is_xml, succeeds.
      destruct (json_loads rt s) as [u|ej]; simpl;
        [intros [= _ <-]; assumption|].
      destruct (is_ValueError ej); simpl; [|discriminate].
      destruct (is_html s); simpl; [intros [= _ <-]; assumption|].
      destruct (xml_parse rt s) as [u|ex]; simpl;
        [intros [= _ <-]; assumption|].
      destruct (is_ExpatError ex); simpl;
        [intros [= _ <-]; assumption | discriminate].
  - destruct (json_dumps rt kvs) as [text|e]; simpl;
      [intros [= _ <-]; assumption | discriminate].
Qed.

Lemma negotiated_type_in_table_witness :
  In "image/png" (map snd CTYPES).
Proof.
  exact (negotiated_type_in_table Demo.rt (PyStr "/srv/www/logo.png")
           [x89; x50; x4e; x47] "image/png" eq_refl).
Defined.

(** *** Header names *)

Lemma keys_dict_set (d : dict) (k : string) (v : pyval) :
  map fst (dict_set d k v) =
  if existsb (String.eqb k) (map fst d) then map fst d
  else map fst d ++ [k].
Proof.
  induction d as [|[k' v'] d IH]; simpl; [reflexivity|].
  rewrite (String.eqb_sym k k').
  destruct (k' =? k)%string eqn:E; simpl.
  - apply String.eqb_eq in E. now subst.
  - rewrite IH. now destruct (existsb (String.eqb k) (map fst d)).
Qed.

Lemma existsb_eqb_In (k : string) (l : list string) :
  existsb (String.eqb k) l = true <-> In k l.
Proof.
  rewrite existsb_exists. split.
  - intros (x & Hin & E). apply String.eqb_eq in E. now subst.
  - intros H. exists k. split; [assumption | apply String.eqb_refl].
Qed.

Lemma keys_merge (other : dict) :
  NoDup (map fst other) ->
  forall d : dict,
    map fst (dict_merge d other) = map fst d ++ new_keys d other.
Proof.
  unfold dict_merge, new_keys.
  induction other as [|[k v] other IH]; simpl; intros Hnd d.
  - now rewrite app_nil_r.
  - inversion Hnd as [|? ? Hnotin Hnd']; subst.
    rewrite IH by assumption. rewrite keys_dict_set.
    destruct (existsb (String.eqb k) (map fst d)) eqn:E; simpl.
    + reflexivity.
    + rewrite <- app_assoc. simpl. do 2 f_equal.
      apply filter_ext_in. intros x Hx.
      rewrite existsb_app. simpl. rewrite orb_false_r.
      destruct (String.eqb_spec x k) as [->|_]; [contradiction|].
      now rewrite orb_false_r.
Qed.

Lemma new_keys_fresh (d other : dict) (k : string) :
  In k (new_keys d other) -> In k (map fst other) /\ ~ In k (map fst d).
Proof.
  unfold new_keys. rewrite filter_In. intros [Hin Hneg]. split; [assumption|].
  intros Hd. apply existsb_eqb_In in Hd. rewrite Hd in Hneg. discriminate.
Qed.

Lemma merge_wf (d other : dict) :
  wf_dict d -> wf_dict other -> wf_dict (dict_merge d other).
Proof.
  unfold wf_dict. intros Hd Ho. rewrite keys_merge by assumption.
  apply NoDup_app; [assumption | now apply NoDup_filter |].
  intros k Hk Hnew. apply new_keys_fresh in Hnew. tauto.
Qed.

(** X6. With caller headers given as a mapping, the header names of the
    route are each held once, and in this order: Content-type and
    Content-length when there is a body, then the caller's other names in
    the caller's order; a caller value for one of the two takes its place,
    not a new one. *)
Theorem route_header_names (rt : Runtime) (m p d st : pyval) (caller : dict)
        (r : Route) :
  wf_dict caller ->
  Route_init rt m p d (PyDict caller) st = Ok r ->
  exists h0 : dict,
    init_data rt d = Ok (data r, h0)
    /\ (truthy d = true -> map fst h0 = ["Content-type"; "Content-length"])
    /\ (truthy d = false -> h0 = [])
    /\ map fst (headers r) = map fst h0 ++ new_keys h0 caller
    /\ wf_dict (headers r).
Proof.
  intros Hwf H. apply Route_init_ok in H as (h0 & _ & _ & Hd & Hh & _).
  exists h0. split; [assumption|].
  assert (Hkeys : (truthy d = true ->
                   map fst h0 = ["Content-type"; "Content-length"])
                  /\ (truthy d = false -> h0 = [])).
  { unfold init_data in Hd. destruct (truthy d).
    - apply bind_ok in Hd as ([body ctype] & _ & Hd).
      injection Hd as _ <-. split; [reflexivity | discriminate].
    - injection Hd as _ <-. split; [discriminate | reflexivity]. }
  destruct Hkeys as [Hauto Hnone]. split; [assumption|]. split; [assumption|].
  assert (Hwf0 : wf_dict h0).
  { unfold wf_dict. destruct (truthy d).
    - rewrite Hauto by reflexivity.
      repeat constructor; simpl; intuition discriminate.
    - rewrite Hnone by reflexivity. constructor. }
  unfold init_headers in Hh. destruct (truthy (PyDict caller)) eqn:E.
  - apply reraise_ok in Hh. simpl in Hh. injection Hh as <-.
    split; [now apply keys_merge | now apply merge_wf].
  - injection Hh as <-. destruct caller; [|discriminate].
    unfold new_keys. simpl. rewrite app_nil_r. split; [reflexivity|assumption].
Qed.

Lemma route_header_names_witness :
  exists r,
    Route_init Demo.rt (PyStr "GET") (PyStr "/$") (PyStr "hi")
      (PyDict [("X-A", PyInt 1); ("Content-length", PyInt 99);
               ("X-B", PyInt 2)]) (PyInt 200) = Ok r
    /\ map fst (headers r) = ["Content-type"; "Content-length"; "X-A"; "X-B"].
Proof.
  eexists. split; [vm_compute; reflexivity|].
  assert (Hwf : wf_dict [("X-A", PyInt 1); ("Content-length", PyInt 99);
                         ("X-B", PyInt 2)]).
  { repeat constructor; simpl; intuition discriminate. }
  destruct (route_header_names Demo.rt (PyStr "GET") (PyStr "/$") (PyStr "hi")
              (PyInt 200) _ _ Hwf eq_refl)
    as (h0 & Hd & _ & _ & Hkeys & _).
  vm_compute in Hd. injection Hd as <-. exact Hkeys.
Defined.

(** ** Further properties of the service *)

Lemma mapM_Forall2 {A B} (f : A -> result B) (l : list A) (rs : list B) :
  mapM f l = Ok rs <-> Forall2 (fun a b => f a = Ok b) l rs.
Proof.
  revert rs. induction l as [|a l IH]; intros rs; simpl.
  - split.
    + intros [= <-]. constructor.
    + intros H. inversion H. reflexivity.
  - split.
    + intros H. apply bind_ok in H as (b & Hb & H).
      apply bind_ok in H as (bs & Hbs & H). injection H as <-.
      constructor; [assumption | now apply IH].
    + intros H. inversion H as [|? b ? bs Hb Hbs]; subst.
      rewrite Hb. cbn [bind]. apply IH in Hbs. rewrite Hbs. reflexivity.
Qed.

Lemma Service_init_ok (rt : Runtime) (routes port : pyval) (kw : kwargs)
      (s : Service) :
  Service_init rt routes port kw = Ok s ->
  init_routes rt routes = Ok (_routes s)
  /\ _server s = None
  /\ __set_port rt port = Ok (Stub.port s)
  /\ __set_crt rt (kw_get (kw_crt kw) (PyStr "")) = Ok (crt s)
  /\ __set_key rt (kw_get (kw_key kw) (PyStr "")) = Ok (key s)
  /\ __set_secure (crt s) (key s) (kw_get (kw_secure kw) (PyBool false)) =
     Ok (secure s).
Proof.
  unfold Service_init. intros H.
  apply bind_ok in H as (rs & Hrs & H).
  apply bind_ok in H as (p & Hp & H).
  apply bind_ok in H as (d & Hd & H).
  apply bind_ok in H as (c & Hc & H).
  apply bind_ok in H as (k & Hk & H).
  apply bind_ok in H as (sec & Hsec & H).
  injection H as <-. simpl. auto 10.
Qed.

(** X7. The [routes] argument: a false value (None, an empty list) gives a
    service without routes; a true value that is no list or tuple raises a
    type error; a sequence whose items are all lists or tuples gives one
    route per item, in the same order, each the [cast] of its item; any
    other sequence is itself taken as one route. *)
Theorem routes_argument (rt : Runtime) (port : pyval) (kw : kwargs) :
  (forall routes s,
      Service_init rt routes port kw = Ok s ->
      truthy routes = false -> _routes s = [])
  /\ (forall routes,
         truthy routes = true -> is_list_or_tuple routes = false ->
         Service_init rt routes port kw = Raise TypeError)
  /\ (forall routes s,
         Service_init rt routes port kw = Ok s ->
         truthy routes = true ->
         forallb is_list_or_tuple (items routes) = true ->
         Forall2 (fun item r => cast rt item = Ok r) (items routes)
           (_routes s))
  /\ (forall routes s,
         Service_init rt routes port kw = Ok s ->
         truthy routes = true ->
         forallb is_list_or_tuple (items routes) = false ->
         exists r, cast rt routes = Ok r /\ _routes s = [r]).
Proof.
  split; [|split; [|split]].
  - intros routes s H Ht. apply Service_init_ok in H as (H & _).
    unfold init_routes in H. rewrite Ht in H. now injection H.
  - intros routes Ht Hl. unfold Service_init, init_routes.
    rewrite Ht, Hl. reflexivity.
  - intros routes s H Ht Hall. apply Service_init_ok in H as (H & _).
    unfold init_routes in H. rewrite Ht, Hall in H.
    destruct (is_list_or_tuple routes); [|discriminate]. simpl in H.
    now apply mapM_Forall2.
  - intros routes s H Ht Hall. apply Service_init_ok in H as (H & _).
    unfold init_routes in H. rewrite Ht, Hall in H.
    destruct (is_list_or_tuple routes); [|discriminate]. simpl in H.
    apply bind_ok in H as (r & Hr & H). injection H as H. eauto.
Qed.

Lemma routes_argument_witness :
  (exists s,
      Service_init Demo.rt (PyList []) (PyInt 8081) Demo.no_kwargs = Ok s
      /\ _routes s = [])
  /\ Service_init Demo.rt (PyStr "GET /") (PyInt 8081) Demo.no_kwargs =
     Raise TypeError
  /\ (exists s a b,
         Service_init Demo.rt
           (PyTuple [PyList [PyStr "GET"; PyStr "/a"];
                     PyTuple [PyStr "POST"; PyStr "/b"]])
           (PyInt 8081) Demo.no_kwargs = Ok s
         /\ _routes s = [a; b]
         /\ cast Demo.rt (PyList [PyStr "GET"; PyStr "/a"]) = Ok a
         /\ cast Demo.rt (PyTuple [PyStr "POST"; PyStr "/b"]) = Ok b).
Proof.
  destruct (routes_argument Demo.rt (PyInt 8081) Demo.no_kwargs)
    as (Hnone & Hbad & Hmany & _).
  split; [|split].
  - eexists. split; [vm_compute; reflexivity|].
    apply (Hnone (PyList [])); reflexivity.
  - apply Hbad; reflexivity.
  - destruct (Service_init Demo.rt
                (PyTuple [PyList [PyStr "GET"; PyStr "/a"];
                          PyTuple [PyStr "POST"; PyStr "/b"]])
                (PyInt 8081) Demo.no_kwargs) as [s|e] eqn:Hs;
      [|vm_compute in Hs; discriminate].
    pose proof (Hmany _ s Hs eq_refl eq_refl) as H.
    inversion H as [|? a ? rs Ha H']; subst.
    inversion H' as [|? b ? rs' Hb H'']; subst. inversion H''; subst.
    exists s, a, b. repeat split; auto.
Defined.

(** *** Registration and resolution *)

Lemma registered_ok (rt : Runtime) (m : string) (s s' : Service)
      (path d h st : pyval) :
  registered rt m s path d h st s' ->
  In m ALLOWED
  /\ exists r, Route_init rt (PyStr m) path d h st = Ok r
               /\ _routes s' = _routes s ++ [r].
Proof.
  unfold registered, ALLOWED, GET, POST, PUT, DELETE.
  intros [[-> H]|[[-> H]|[(-> & -> & H)|[-> H]]]];
    apply builder_ok in H; (split; [simpl; tauto | exact H]).
Qed.

Lemma start_ok (rt : Runtime) (s s' : Service) (w w' : World) :
  start rt s w = Some (Ok s', w') ->
  exists server w1,
    _create rt s 3 w = Some (Ok server, w1)
    /\ s' = with_server s (Some server)
    /\ w' = emit EvServe w1.
Proof.
  unfold start. destruct (_routes s); [discriminate|].
  destruct (_create rt s 3 w) as [[[server|e] w1]|]; try discriminate.
  intros [= <- <-]. eauto.
Qed.

Lemma built_routes_allowed (rt : Runtime) (s : Service) :
  built rt s -> Forall allowed_method (_routes s).
Proof.
  assert (Happ : forall s0 s1 m path d h st,
             Forall allowed_method (_routes s0) ->
             (r <- Route_init rt m path d h st ;; Ok (append_route s0 r))
             = Ok s1 ->
             Forall allowed_method (_routes s1)).
  { intros s0 s1 m path d h st H0 H.
    apply builder_ok in H as (r & Hr & ->). apply Forall_app. split; auto.
    constructor; [|constructor]. eapply Route_init_allowed; eauto. }
  induction 1 as [routes port kw s H | | | | | s w s' w' _ IH H];
    try (eapply Happ; eassumption).
  - apply Service_init_ok in H as (H & _). unfold init_routes in H.
    destruct (truthy routes); [|injection H as <-; constructor].
    destruct (is_list_or_tuple routes); [|discriminate]. simpl in H.
    destruct (forallb is_list_or_tuple (items routes)).
    + apply mapM_Forall2 in H. induction H as [|item r ? ? Hr _ IH];
        constructor; auto.
      apply cast_ok in Hr as (m & p & opts & _ & Hr).
      eapply Route_init_allowed; eauto.
    + apply bind_ok in H as (r & Hr & H). injection H as <-.
      constructor; [|constructor].
      apply cast_ok in Hr as (m & p & opts & _ & Hr).
      eapply Route_init_allowed; eauto.
  - apply start_ok in H as (server & w1 & _ & -> & _). exact IH.
Qed.

(** X8. On a service that was constructed, extended by the builders and
    started, a request whose method is not exactly one of GET, POST, PUT,
    DELETE resolves to no route, whatever the path and the patterns. *)
Theorem unsupported_method_unresolved (rt : Runtime) (s : Service)
        (m p : string) :
  built rt s -> ~ In m ALLOWED -> resolve rt s m p = Ok None.
Proof.
  intros Hb Hm. unfold resolve. apply resolve_loop_none.
  pose proof (built_routes_allowed rt s Hb) as Hall.
  rewrite Forall_forall in *. intros r Hr.
  destruct (Hall r Hr) as (a & Ha & Hin).
  unfold skipped, route_test. rewrite Ha. simpl.
  destruct (String.eqb_spec a m) as [->|_]; [contradiction | reflexivity].
Qed.

Lemma unsupported_method_unresolved_witness :
  exists s,
    Service_init Demo.rt (PyList [PyStr "get"; PyStr "/"]) (PyInt 8081)
      Demo.no_kwargs = Ok s
    /\ resolve Demo.rt s "get" "/" = Ok None
    /\ resolve Demo.rt s "PATCH" "/" = Ok None.
Proof.
  assert (Hs : Service_init Demo.rt (PyList [PyStr "get"; PyStr "/"])
                 (PyInt 8081) Demo.no_kwargs =
               Ok (mkService None
                     [mkRoute (PyStr "GET") (PyStr "/") None [] 200]
                     8081 false 0 (PyStr "") (PyStr "") (PyBool false)))
    by reflexivity.
  eexists. split; [exact Hs|].
  split; apply unsupported_method_unresolved;
    try exact (built_init _ _ _ _ _ Hs);
    unfold ALLOWED; intros [H|[H|[H|[H|[]]]]]; discriminate.
Defined.

Lemma resolve_loop_app (rt : Runtime) (l1 l2 : list Route) (m p : string) :
  resolve_loop rt (l1 ++ l2) m p =
  match resolve_loop rt l1 m p with
  | Ok None => resolve_loop rt l2 m p
  | found => found
  end.
Proof.
  induction l1 as [|r l1 IH]; simpl; [reflexivity|].
  destruct (route_test rt r m p) as [[|]|e]; simpl; auto.
Qed.

(** X9. Adding a route with a builder never changes the answer to a
    request that already resolved, nor the error of one for which
    [resolve] raised; and a request that did not resolve can afterwards
    only resolve to the route just added. *)
Theorem builders_keep_resolution (rt : Runtime) (m0 : string)
        (s s' : Service) (pat d h st : pyval) (m p : string) :
  registered rt m0 s pat d h st s' ->
  (forall r, resolve rt s m p = Ok (Some r) ->
             resolve rt s' m p = Ok (Some r))
  /\ (forall r', resolve rt s m p = Ok None ->
                 resolve rt s' m p = Ok (Some r') ->
                 _routes s' = _routes s ++ [r'])
  /\ (forall e, resolve rt s m p = Raise e -> resolve rt s' m p = Raise e).
Proof.
  intros H. apply registered_ok in H as (_ & r0 & _ & Hroutes).
  unfold resolve. rewrite Hroutes, resolve_loop_app. split; [|split].
  - intros r ->. reflexivity.
  - intros r' ->. simpl.
    destruct (route_test rt r0 m p) as [[|]|e]; simpl;
      [now intros [= ->] | discriminate | discriminate].
  - intros e ->. reflexivity.
Qed.

Lemma builders_keep_resolution_witness :
  exists s' r,
    get Demo.rt Demo.service (PyStr "/.*") (PyStr "fallback") PyNone
      (PyInt 404) = Ok s'
    /\ resolve Demo.rt Demo.service "GET" "/" = Ok (Some r)
    /\ resolve Demo.rt s' "GET" "/" = Ok (Some r)
    /\ status r = 200.
Proof.
  eexists. eexists.
  assert (Hget : get Demo.rt Demo.service (PyStr "/.*") (PyStr "fallback")
                   PyNone (PyInt 404) = Ok _) by (vm_compute; reflexivity).
  assert (Hres : resolve Demo.rt Demo.service "GET" "/" =
                 Ok (Some Demo.home)) by reflexivity.
  split; [exact Hget|]. split; [exact Hres|]. split; [|reflexivity].
  refine (proj1 (builders_keep_resolution Demo.rt GET Demo.service _
                   (PyStr "/.*") (PyStr "fallback") PyNone (PyInt 404)
                   "GET" "/" _) _ Hres).
  left. split; [reflexivity | exact Hget].
Defined.

(** X10. When the runtime leaves the four method names unchanged by
    [upper], a route added by a builder with a text pattern decides every
    request that no earlier route answered: a request of another method
    still resolves to nothing; for a request of its method the added route
    is returned when [re.match] finds the pattern at the start of the
    path, nothing is returned when it does not, and the error is raised
    when [re.match] raises, as for a pattern that does not compile. *)
Theorem registered_route_resolves (rt : Runtime) (m0 pat : string)
        (s s' : Service) (d h st : pyval) (m p : string) :
  str_upper rt m0 = m0 ->
  registered rt m0 s (PyStr pat) d h st s' ->
  resolve rt s m p = Ok None ->
  exists r,
    _routes s' = _routes s ++ [r]
    /\ path r = PyStr pat
    /\ resolve rt s' m p =
       if (m0 =? m)%string then
         match re_match rt (PyStr pat) p with
         | Ok true => Ok (Some r)
         | Ok false => Ok None
         | Raise e => Raise e
         end
       else Ok None.
Proof.
  intros Hup H Hnone. apply registered_ok in H as (_ & r & Hr & Hroutes).
  apply Route_init_ok in Hr as (_ & Hm & Hp & _).
  rewrite init_method_str in Hm.
  destruct (py_in (PyStr (str_upper rt m0)) ALLOWED); [|discriminate].
  injection Hm as Hm. rewrite Hup in Hm.
  unfold init_path, py_strip in Hp. cbn [bind] in Hp.
  destruct (truthy (PyStr (str_strip rt pat))); [|discriminate].
  injection Hp as Hp.
  exists r. split; [assumption|]. split; [auto|].
  unfold resolve in *. rewrite Hroutes, resolve_loop_app, Hnone. simpl.
  unfold route_test. rewrite <- Hm, <- Hp. simpl.
  destruct (m0 =? m)%string; [|reflexivity].
  destruct (re_match rt (PyStr pat) p) as [[|]|e]; reflexivity.
Qed.

Lemma registered_route_resolves_witness :
  exists s' r,
    post Demo.rt Demo.service (PyStr "/items/$") PyNone PyNone (PyInt 201)
    = Ok s'
    /\ resolve Demo.rt s' "POST" "/items/" = Ok (Some r)
    /\ status r = 201
    /\ resolve Demo.rt s' "POST" "/other" = Ok None.
Proof.
  assert (Hpost : post Demo.rt Demo.service (PyStr "/items/$") PyNone PyNone
                    (PyInt 201) =
                  Ok (append_route Demo.service
                        (mkRoute (PyStr "POST") (PyStr "/items/$") None []
                           201))) by reflexivity.
  assert (Hreg : registered Demo.rt POST Demo.service (PyStr "/items/$")
                   PyNone PyNone (PyInt 201)
                   (append_route Demo.service
                      (mkRoute (PyStr "POST") (PyStr "/items/$") None []
                         201))).
  { right. left. split; [reflexivity | exact Hpost]. }
  destruct (registered_route_resolves Demo.rt POST "/items/$" _ _ _ _ _
              "POST" "/items/" eq_refl Hreg eq_refl)
    as (r & Hroutes & _ & Hres).
  destruct (registered_route_resolves Demo.rt POST "/items/$" _ _ _ _ _
              "POST" "/other" eq_refl Hreg eq_refl)
    as (r' & _ & _ & Hres').
  simpl in Hroutes. injection Hroutes as <-.
  eexists. eexists. split; [exact Hpost|]. split; [exact Hres|].
  split; [reflexivity | exact Hres'].
Defined.

(** *** Starting and stopping *)

Lemma try_server_sound (rt : Runtime) (s : Service) (w : World) :
  exists l,
    events (snd (try_server rt s w)) = events w ++ l
    /\ tries (snd (try_server rt s w)) = S (tries w)
    /\ Forall loop_event l
    /\ (truthy (secure s) = false -> ~ In EvWrap l)
    /\ (forall server, fst (try_server rt s w) = Ok server ->
                       tls server = truthy (secure s)).
Proof.
  assert (Hbind : Forall loop_event [EvBind])
    by (repeat (apply Forall_cons; [unfold loop_event; auto|]);
        apply Forall_nil).
  assert (Hboth : Forall loop_event [EvBind; EvWrap])
    by (repeat (apply Forall_cons; [unfold loop_event; auto|]);
        apply Forall_nil).
  assert (Hnowrap : ~ In EvWrap [EvBind]) by (simpl; intuition discriminate).
  unfold try_server, emit, next_try.
  destruct (truthy (secure s)) eqn:Hsec;
    (destruct (http_server rt (tries w)) as [u|e];
     [|exists [EvBind]; simpl; repeat split; auto; discriminate]).
  - destruct (wrap_socket rt (tries w)) as [u'|e'];
      exists [EvBind; EvWrap]; simpl; rewrite <- app_assoc;
      repeat split; auto; try discriminate.
    intros server [= <-]. reflexivity.
  - exists [EvBind]. simpl. repeat split; auto.
    intros server [= <-]. reflexivity.
Qed.

Lemma create_loop_sound (rt : Runtime) (s : Service) :
  forall (fuel : nat) (attempts : Z) (w : World) r w',
    _create_loop rt fuel s attempts w = Some (r, w') ->
    exists l,
      events w' = events w ++ l
      /\ (tries w <= tries w')%nat
      /\ Forall loop_event l
      /\ (truthy (secure s) = false -> ~ In EvWrap l)
      /\ (forall server, r = Ok server -> tls server = truthy (secure s)).
Proof.
  induction fuel as [|fuel IH]; intros attempts w r w'; simpl;
    [discriminate|].
  destruct (attempts >=? 0).
  2:{ intros [= <- <-]. exists []. rewrite app_nil_r.
      repeat split; auto; intros; discriminate. }
  destruct (try_server_sound rt s w) as (l & Hev & Htries & Hl & Hwrap & Htls).
  destruct (try_server rt s w) as [r1 w1]. simpl in *.
  assert (Hret : Some (r1, w1) = Some (r, w') ->
                 exists l0,
                   events w' = events w ++ l0
                   /\ (tries w <= tries w')%nat
                   /\ Forall loop_event l0
                   /\ (truthy (secure s) = false -> ~ In EvWrap l0)
                   /\ (forall server, r = Ok server ->
                                      tls server = truthy (secure s))).
  { intros [= <- <-]. exists l. repeat split; auto; lia. }
  destruct r1 as [server|[| | | |[errno|]| |]]; try exact Hret.
  destruct (errno =? EADDRINUSE); [|exact Hret].
  intros H. apply IH in H as (l2 & Hev2 & Htries2 & Hl2 & Hwrap2 & Htls2).
  unfold emit in *. simpl in *.
  exists (l ++ [EvSleep (1 # 2)] ++ l2). split.
  - rewrite Hev2, Hev. now repeat rewrite <- app_assoc.
  - split; [lia|]. split.
    + apply Forall_app. split; [assumption|].
      constructor; [right; now right | assumption].
    + split; [|assumption]. intros Hs Hin.
      apply in_app_or in Hin as [Hin|[Hin|Hin]];
        [now apply Hwrap | discriminate | now apply Hwrap2].
Qed.

(** X11. What [start] leaves behind.  On success the service differs only
    by its server, which is wrapped for TLS exactly when [secure] is true,
    and the events added are constructions, wraps and half-second pauses
    followed by the start of the serving thread; on failure no thread is
    started.  When [secure] is false the socket is never wrapped. *)
Theorem start_outcome (rt : Runtime) (s : Service) (w : World)
        (r : result Service) (w' : World) :
  start rt s w = Some (r, w') ->
  exists l,
    Forall loop_event l
    /\ (truthy (secure s) = false -> ~ In EvWrap l)
    /\ (forall s', r = Ok s' ->
                   events w' = events w ++ l ++ [EvServe]
                   /\ exists server,
                        s' = with_server s (Some server)
                        /\ tls server = truthy (secure s))
    /\ (forall e, r = Raise e -> events w' = events w ++ l).
Proof.
  unfold start. destruct (_routes s) as [|r0 rs].
  - intros [= <- <-]. exists []. rewrite app_nil_r.
    repeat split; auto; intros; discriminate.
  - unfold _create. destruct (_create_loop rt _ s 3 w) as [[r1 w1]|] eqn:E;
      [|discriminate].
    apply create_loop_sound in E as (l & Hev & _ & Hl & Hwrap & Htls).
    destruct r1 as [server|e1]; intros [= <- <-]; exists l;
      (split; [assumption|]); (split; [assumption|]); split;
      try (intros; discriminate).
    + intros s' [= <-]. unfold emit. simpl. rewrite Hev, <- app_assoc.
      split; [reflexivity|]. exists server. split; [reflexivity|].
      now apply Htls.
    + intros e _. assumption.
Qed.

Lemma start_outcome_witness :
  exists s' w',
    start (Demo.runtime (Demo.busy_for 1) Demo.free) Demo.service
      (mkWorld 0 []) = Some (Ok s', w')
    /\ _routes s' = _routes Demo.service
    /\ _server s' = Some (mkServer false)
    /\ ~ In EvWrap (events w').
Proof.
  eexists. eexists.
  assert (H : start (Demo.runtime (Demo.busy_for 1) Demo.free) Demo.service
                (mkWorld 0 []) = Some (Ok _, _)) by (vm_compute; reflexivity).
  split; [exact H|].
  destruct (start_outcome _ _ _ _ _ H) as (l & _ & _ & Hok & _).
  destruct (Hok _ eq_refl) as (_ & server & Hs & Htls).
  injection Hs as <-. split; [reflexivity|]. split; [reflexivity|].
  vm_compute. intuition discriminate.
Defined.

(** The loop returns once it has fuel for one iteration more than the
    constructions it may make. *)
Lemma create_loop_returns (rt : Runtime) (s : Service) (attempts : Z)
      (fuel : nat) (w : World) :
  (Z.to_nat (attempts + 1) < fuel)%nat ->
  exists r w',
    _create_loop rt fuel s attempts w = Some (r, w')
    /\ (tries w' <= tries w + Z.to_nat (attempts + 1))%nat
    /\ (attempts < 0 -> r = Raise (OSError None) /\ w' = w).
Proof.
  remember (Z.to_nat (attempts + 1)) as n eqn:Hn.
  revert attempts fuel w Hn.
  induction n as [|n IH]; intros attempts fuel w Hn Hfuel;
    (destruct fuel as [|fuel]; [lia|]); simpl.
  - replace (attempts >=? 0) with false by lia.
    exists (Raise (OSError None)), w. repeat split; auto; lia.
  - replace (attempts >=? 0) with true by lia.
    rewrite try_server_split.
    assert (Hdone : forall r : result HTTPServer,
      exists r0 w',
        Some (r, mkWorld (S (tries w))
                   (events w ++ attempt_events rt s (tries w))) =
        Some (r0, w')
        /\ (tries w' <= tries w + S n)%nat
        /\ (attempts < 0 -> r0 = Raise (OSError None) /\ w' = w)).
    { intros r. eexists. eexists. split; [reflexivity|]. simpl.
      split; lia. }
    destruct (attempt rt s (tries w)) as [server|[| | | |[errno|]| |]];
      try apply Hdone.
    destruct (errno =? EADDRINUSE); [|apply Hdone].
    destruct (IH (attempts - 1) fuel
                (emit (EvSleep (1 # 2))
                   (mkWorld (S (tries w))
                      (events w ++ attempt_events rt s (tries w)))))
      as (r & w' & H & Htries & _); try lia.
    exists r, w'. split; [exact H|]. simpl in Htries. split; lia.
Qed.

(** X12. The retry loop for any number of attempts: given fuel for one
    iteration more than [attempts + 1], it returns, after at most
    [attempts + 1] constructions; with a negative count it makes none and
    raises the final OS error at once. *)
Theorem create_loop_total (rt : Runtime) (s : Service) (attempts : Z)
        (fuel : nat) (w : World) :
  (Z.to_nat (attempts + 1) < fuel)%nat ->
  exists r w',
    _create_loop rt fuel s attempts w = Some (r, w')
    /\ (tries w' <= tries w + Z.to_nat (attempts + 1))%nat
    /\ (attempts < 0 -> r = Raise (OSError None) /\ w' = w).
Proof. apply create_loop_returns. Qed.

Lemma create_loop_total_witness :
  _create_loop (Demo.runtime (Demo.busy_for 9) Demo.free) 1 Demo.service
    (-5) (mkWorld 0 []) = Some (Raise (OSError None), mkWorld 0 [])
  /\ exists r w',
       _create_loop (Demo.runtime (Demo.busy_for 9) Demo.free) 2
         Demo.service 0 (mkWorld 0 []) = Some (r, w')
       /\ (tries w' <= 1)%nat.
Proof.
  split.
  - destruct (create_loop_total (Demo.runtime (Demo.busy_for 9) Demo.free)
                Demo.service (-5) 1 (mkWorld 0 []) ltac:(simpl; lia))
      as (r & w' & H & _ & Hneg).
    destruct (Hneg ltac:(lia)) as [-> ->]. exact H.
  - destruct (create_loop_total (Demo.runtime (Demo.busy_for 9) Demo.free)
                Demo.service 0 2 (mkWorld 0 []) ltac:(simpl; lia))
      as (r & w' & H & Htries & _).
    exists r, w'. split; [exact H | exact Htries].
Defined.

(** X24. [_create] returns for every number of attempts, negative ones
    included: it makes at most [attempts + 1] constructions, and with a
    negative count it makes none and raises the final OS error at once,
    the world left as it was. *)
Theorem create_total (rt : Runtime) (s : Service) (attempts : Z) (w : World) :
  exists r w',
    _create rt s attempts w = Some (r, w')
    /\ (tries w' <= tries w + Z.to_nat (attempts + 1))%nat
    /\ (attempts < 0 -> r = Raise (OSError None) /\ w' = w).
Proof. unfold _create. apply create_loop_returns. lia. Qed.

Lemma create_total_witness :
  _create (Demo.runtime (Demo.busy_for 9) Demo.free) Demo.service (-5)
    (mkWorld 0 []) = Some (Raise (OSError None), mkWorld 0 [])
  /\ exists w',
       _create (Demo.runtime (Demo.busy_for 9) Demo.free) Demo.service 1
         (mkWorld 0 []) = Some (Raise (OSError None), w')
       /\ tries w' = 2%nat.
Proof.
  split.
  - destruct (create_total (Demo.runtime (Demo.busy_for 9) Demo.free)
                Demo.service (-5) (mkWorld 0 []))
      as (r & w' & H & _ & Hneg).
    destruct (Hneg ltac:(lia)) as [-> ->]. exact H.
  - eexists. split; vm_compute; reflexivity.
Defined.

(** X13. [stop] on a service that was constructed and never started does
    nothing; after a successful [start] it closes the server, and does so
    again each time it is called, the server being kept; after a failed
    [start] it still does nothing. *)
Theorem stop_behaviour (rt : Runtime) (routes port : pyval) (kw : kwargs)
        (s : Service) (w : World) :
  Service_init rt routes port kw = Ok s ->
  stop s w = w
  /\ (forall s' w',
         start rt s w = Some (Ok s', w') ->
         events (stop s' w') = events w' ++ [EvClose]
         /\ events (stop s' (stop s' w')) = events w' ++ [EvClose; EvClose])
  /\ (forall e w', start rt s w = Some (Raise e, w') -> stop s w' = w').
Proof.
  intros H. apply Service_init_ok in H as (_ & Hserver & _).
  unfold stop. rewrite Hserver. split; [reflexivity|]. split.
  - intros s' w' Hs. apply start_ok in Hs as (server & w1 & _ & -> & _).
    simpl. rewrite <- app_assoc. split; reflexivity.
  - reflexivity.
Qed.

Lemma stop_behaviour_witness :
  exists s s' w',
    Service_init Demo.rt (PyList [PyStr "GET"; PyStr "/$"]) (PyInt 8081)
      Demo.no_kwargs = Ok s
    /\ stop s (mkWorld 0 []) = mkWorld 0 []
    /\ start Demo.rt s (mkWorld 0 []) = Some (Ok s', w')
    /\ events (stop s' w') = [EvBind; EvServe; EvClose].
Proof.
  exists Demo.service.
  destruct (stop_behaviour Demo.rt (PyList [PyStr "GET"; PyStr "/$"])
              (PyInt 8081) Demo.no_kwargs Demo.service (mkWorld 0 []) eq_refl)
    as (Hnoop & Hclose & _).
  eexists. eexists. split; [reflexivity|]. split; [exact Hnoop|].
  assert (Hs : start Demo.rt Demo.service (mkWorld 0 []) = Some (Ok _, _))
    by (vm_compute; reflexivity).
  split; [exact Hs|].
  rewrite (proj1 (Hclose _ _ Hs)). reflexivity.
Defined.

(** X14. Scoped use.  [with self] runs the block only when [start]
    succeeded: a failing [start], as with no route, passes its error on
    and nothing is closed.  When [start] succeeded and the block keeps the
    server, the server is closed after the block whether the block
    returned or raised, and the outcome of the block is the outcome of the
    whole.  [__call__] wraps a function that way and returns any other
    object unchanged. *)
Theorem scoped_use (rt : Runtime) (A X : Type) (s : Service) (w : World)
        (body : block A) :
  (forall e w1,
      start rt s w = Some (Raise e, w1) ->
      with_self rt s w body = Some (Raise e, s, w1))
  /\ (_routes s = [] ->
      with_self rt s w body = Some (Raise ValueError, s, w))
  /\ (forall s1 w1 r s2 w2,
         start rt s w = Some (Ok s1, w1) ->
         body s1 w1 = (r, s2, w2) ->
         _server s2 = _server s1 ->
         with_self rt s w body = Some (r, s2, emit EvClose w2))
  /\ (forall f : X -> block A,
         exists g, __call__ rt (inl f) = inl g
                   /\ forall x s0 w0, g x s0 w0 = with_self rt s0 w0 (f x))
  /\ (forall v : pyval,
         __call__ rt (inr v : (X -> block A) + pyval) = inr v).
Proof.
  unfold with_self, __enter__, __exit__.
  split; [|split; [|split; [|split]]].
  - intros e w1 ->. reflexivity.
  - intros H. unfold start. rewrite H. reflexivity.
  - intros s1 w1 r s2 w2 Hs Hb Hkeep. rewrite Hs, Hb.
    apply start_ok in Hs as (server & w0 & _ & -> & _).
    unfold stop. rewrite Hkeep. reflexivity.
  - intros f. eexists. split; reflexivity.
  - reflexivity.
Qed.

Lemma scoped_use_witness :
  with_self Demo.rt Demo.service (mkWorld 0 [])
    (fun s w => (Raise ValueError : result unit, s, w)) =
  Some (Raise ValueError,
        with_server Demo.service (Some (mkServer false)),
        mkWorld 1 [EvBind; EvServe; EvClose]).
Proof.
  destruct (scoped_use Demo.rt unit unit Demo.service (mkWorld 0 [])
              (fun s w => (Raise ValueError : result unit, s, w)))
    as (_ & _ & Hrun & _).
  exact (Hrun _ _ _ _ _ eq_refl eq_refl eq_refl).
Defined.

(** *** Address and configuration *)

Lemma format_d_inj (a b : Z) : format_d a = format_d b -> a = b.
Proof.
  unfold format_d. intros H.
  assert (Hparse : forall z,
             NilZero.int_of_string (NilZero.string_of_int (Z.to_int z)) =
             Some (Z.to_int z)).
  { intros z. apply NilZero.isi; destruct z; simpl; try discriminate;
      intros [= Hnil]; now apply (DecimalPos.Unsigned.to_uint_nonnil p). }
  apply DecimalZ.to_int_inj.
  pose proof (Hparse a) as Ha. rewrite H, Hparse in Ha. congruence.
Qed.

(** X15. The address of a service is the scheme, [://localhost:] and the
    port in decimal, the scheme being https exactly when [secure] is true;
    two services have the same address only if they have the same port
    and the same scheme. *)
Theorem host_injective (s1 s2 : Service) :
  host s1 =
    ((if truthy (secure s1) then "https" else "http") ++ "://localhost:"
       ++ format_d (port s1))%string
  /\ (host s1 = host s2 ->
      port s1 = port s2 /\ truthy (secure s1) = truthy (secure s2)).
Proof.
  split; [unfold host, socket; now destruct (truthy (secure s1))|].
  unfold host, socket. simpl.
  destruct (truthy (secure s1)), (truthy (secure s2)); simpl;
    intros H; try discriminate; injection H as H;
    apply format_d_inj in H; auto.
Qed.

Lemma host_injective_witness :
  host Demo.service = "http://localhost:8081"
  /\ port Samples.service = port Demo.service.
Proof.
  split.
  - rewrite (proj1 (host_injective Demo.service Demo.service)). reflexivity.
  - exact (proj1 (proj2 (host_injective Samples.service Demo.service)
                    eq_refl)).
Defined.

Lemma set_key_cases (rt : Runtime) (v k : pyval) :
  __set_key rt v = Ok k ->
  exists (p : string) (b : bool),
    v = PyStr p /\ Path_exists rt p = Ok b
    /\ k = if b then PyStr p else PyBool false.
Proof.
  unfold __set_key, Path_exists_of. destruct v; try discriminate.
  simpl. destruct (Path_exists rt s) as [b|e] eqn:E; simpl.
  - intros [= <-]. exists s, b. auto.
  - destruct (is_TypeError e); discriminate.
Qed.

Lemma kw_get_text (o : option pyval) (p : string) :
  kw_get o (PyStr "") = PyStr p -> p <> "" -> o = Some (PyStr p).
Proof.
  destruct o as [v|]; simpl; [now intros -> | intros [= <-]; congruence].
Qed.

(** X16. In a constructed service the stored key is the text given for it
    (the empty text when none is given) if the existence test answers
    true for that text, and False if it answers false; likewise the
    certificate.  When the service is secure, both were given, as
    non-empty texts for which the test answers true, and are stored
    unchanged. *)
Theorem secure_service_has_paths (rt : Runtime) (routes port : pyval)
        (kw : kwargs) (s : Service) :
  Service_init rt routes port kw = Ok s ->
  (exists (k : string) (b : bool),
      kw_get (kw_key kw) (PyStr "") = PyStr k
      /\ Path_exists rt k = Ok b
      /\ key s = if b then PyStr k else PyBool false)
  /\ (exists (c : string) (b : bool),
         kw_get (kw_crt kw) (PyStr "") = PyStr c
         /\ Path_exists rt c = Ok b
         /\ crt s = if b then PyStr c else PyBool false)
  /\ (truthy (secure s) = true ->
      exists k c,
        kw_key kw = Some (PyStr k) /\ kw_crt kw = Some (PyStr c)
        /\ key s = PyStr k /\ crt s = PyStr c
        /\ k <> "" /\ c <> ""
        /\ Path_exists rt k = Ok true /\ Path_exists rt c = Ok true).
Proof.
  intros H. apply Service_init_ok in H as (_ & _ & _ & Hc & Hk & Hsec).
  apply set_key_cases in Hk as (k & bk & Hkarg & Hkex & Hk).
  apply set_key_cases in Hc as (c & bc & Hcarg & Hcex & Hc).
  split; [eauto|]. split; [eauto|].
  intros Ht. unfold __set_secure in Hsec.
  destruct (truthy (kw_get (kw_secure kw) (PyBool false))) eqn:E.
  - destruct (truthy (crt s)) eqn:Ec; [|discriminate].
    destruct (truthy (key s)) eqn:Ek; [|discriminate].
    rewrite Hk in Ek. rewrite Hc in Ec.
    destruct bk; [|discriminate]. destruct bc; [|discriminate].
    simpl in Ek, Ec.
    assert (Hkne : k <> "") by (intros ->; discriminate).
    assert (Hcne : c <> "") by (intros ->; discriminate).
    exists k, c. repeat split; auto using kw_get_text.
  - simpl in Hsec. injection Hsec as Hsec. rewrite <- Hsec, E in Ht.
    discriminate.
Qed.

Lemma secure_service_has_paths_witness :
  exists s,
    Service_init Demo.rt (PyList [PyStr "GET"; PyStr "/$"]) (PyInt 8081)
      (mkKwargs None None (Some (PyInt 1))
         (Some (PyStr "/etc/restub/restub.key"))
         (Some (PyStr "/etc/restub/restub.crt"))) = Ok s
    /\ key s = PyStr "/etc/restub/restub.key"
    /\ host s = "https://localhost:8081".
Proof.
  eexists. split; [vm_compute; reflexivity|].
  destruct (secure_service_has_paths Demo.rt
              (PyList [PyStr "GET"; PyStr "/$"]) (PyInt 8081)
              (mkKwargs None None (Some (PyInt 1))
                 (Some (PyStr "/etc/restub/restub.key"))
                 (Some (PyStr "/etc/restub/restub.crt"))) _ eq_refl)
    as (_ & _ & Hsec).
  destruct (Hsec eq_refl) as (k & c & Hkw & _ & Hk & _).
  injection Hkw as <-. split; [exact Hk | reflexivity].
Defined.

(** X17. Given a [routes] argument that is accepted: a type or value
    error of [int] on the port is raised as a type error and any other
    error of it is raised as it is; likewise for [float] on the delay once
    the port is accepted; after them a certificate, and after an accepted
    certificate a key, that is not text raises a type error. *)
Theorem construction_value_errors (rt : Runtime) (routes port : pyval)
        (kw : kwargs) (rs : list Route) :
  init_routes rt routes = Ok rs ->
  (forall e,
      py_int rt port = Raise e ->
      Service_init rt routes port kw =
      Raise (if is_TypeError_or_ValueError e then TypeError else e))
  /\ (forall p e,
         py_int rt port = Ok p ->
         py_float rt (kw_get (kw_delay kw) (PyInt 0)) = Raise e ->
         Service_init rt routes port kw =
         Raise (if is_TypeError_or_ValueError e then TypeError else e))
  /\ (forall p d,
         py_int rt port = Ok p ->
         py_float rt (kw_get (kw_delay kw) (PyInt 0)) = Ok d ->
         ((forall c, kw_get (kw_crt kw) (PyStr "") <> PyStr c) ->
          Service_init rt routes port kw = Raise TypeError)
         /\ (forall c0,
                __set_crt rt (kw_get (kw_crt kw) (PyStr "")) = Ok c0 ->
                (forall k, kw_get (kw_key kw) (PyStr "") <> PyStr k) ->
                Service_init rt routes port kw = Raise TypeError)).
Proof.
  intros Hrs. unfold Service_init. rewrite Hrs. cbn [bind].
  unfold __set_port, __set_delay. split; [|split].
  - intros e ->. simpl. now destruct (is_TypeError_or_ValueError e).
  - intros p e -> ->. simpl. now destruct (is_TypeError_or_ValueError e).
  - intros p d -> ->. simpl. split.
    + intros Hc. unfold __set_crt, Path_exists_of.
      destruct (kw_get (kw_crt kw) (PyStr "")); try reflexivity.
      now elim (Hc s).
    + intros c0 -> Hk. cbn [bind]. unfold __set_key, Path_exists_of.
      destruct (kw_get (kw_key kw) (PyStr "")); try reflexivity.
      now elim (Hk s).
Qed.

Lemma construction_value_errors_witness :
  Service_init Demo.rt (PyList [PyStr "GET"; PyStr "/$"]) (PyStr "http")
    Demo.no_kwargs = Raise TypeError
  /\ Service_init Demo.rt (PyList [PyStr "GET"; PyStr "/$"])
       (PyFloat 0x7FF0000000000000) Demo.no_kwargs = Raise OverflowError
  /\ Service_init Demo.rt (PyList [PyStr "GET"; PyStr "/$"]) (PyInt 8081)
       (mkKwargs None None None (Some PyNone) None) = Raise TypeError.
Proof.
  split; [|split].
  - exact (proj1 (construction_value_errors Demo.rt
                    (PyList [PyStr "GET"; PyStr "/$"]) (PyStr "http")
                    Demo.no_kwargs _ eq_refl) ValueError eq_refl).
  - exact (proj1 (construction_value_errors Demo.rt
                    (PyList [PyStr "GET"; PyStr "/$"])
                    (PyFloat 0x7FF0000000000000)
                    Demo.no_kwargs _ eq_refl) OverflowError eq_refl).
  - refine (proj2 (proj2 (proj2 (construction_value_errors Demo.rt
                    (PyList [PyStr "GET"; PyStr "/$"]) (PyInt 8081)
                    (mkKwargs None None None (Some PyNone) None) _ eq_refl))
                    8081 0 eq_refl eq_refl) _ eq_refl _).
    intros k. discriminate.
Defined.

(** ** Properties of the request handler *)

Lemma log_cases (s : Service) (msg : string) :
  log s msg = if trace s then [HLog msg] else [].
Proof. reflexivity. Qed.

Lemma io_bind_assoc {A B C} (c : io A) (k : A -> io B) (k' : B -> io C) :
  io_bind (io_bind c k) k' = io_bind c (fun a => io_bind (k a) k').
Proof.
  destruct c as [[a|e] evs]; simpl; [|reflexivity].
  destruct (k a) as [[b|e] evs1]; simpl; [|reflexivity].
  destruct (k' b) as [r evs2]. now rewrite app_assoc.
Qed.

Lemma io_bind_fst {A B} (c : io A) (k : A -> io B) :
  fst (io_bind c k) =
  match fst c with Ok a => fst (k a) | Raise e => Raise e end.
Proof.
  destruct c as [[a|e] evs]; simpl; [|reflexivity]. now destruct (k a).
Qed.

Lemma io_bind_snd {A B} (c : io A) (k : A -> io B) :
  snd (io_bind c k) =
  snd c ++ match fst c with Ok a => snd (k a) | Raise _ => [] end.
Proof.
  destruct c as [[a|e] evs]; simpl;
    [now destruct (k a) | now rewrite app_nil_r].
Qed.

Lemma calls_app (raises : hevent -> option exn) (l1 l2 : list hevent) :
  calls raises (l1 ++ l2) =
  io_bind (calls raises l1) (fun _ => calls raises l2).
Proof.
  induction l1 as [|e l1 IH]; simpl.
  - now destruct (calls raises l2).
  - rewrite IH, io_bind_assoc. reflexivity.
Qed.

(** A sequence of calls returns in full, or stops at the first call that
    raises, with the calls before it made. *)
Lemma calls_outcome (raises : hevent -> option exn) (l : list hevent) :
  (all_return raises l /\ calls raises l = (Ok tt, l))
  \/ (exists e done rest,
        calls raises l = (Raise e, done)
        /\ l = done ++ rest /\ ~ all_return raises l).
Proof.
  unfold all_return. induction l as [|x l IH].
  - left. split; [constructor | reflexivity].
  - simpl. unfold call. destruct (raises x) as [ex|] eqn:Ex.
    + right. exists ex, [], (x :: l). simpl. repeat split.
      intros H. inversion H; congruence.
    + destruct IH as [[Hall ->]|(e & done & rest & -> & Hl & Hn)].
      * left. split; [now constructor | reflexivity].
      * right. exists e, (x :: done), rest. simpl. repeat split.
        -- now rewrite Hl at 1.
        -- intros H. inversion H; auto.
Qed.

Lemma calls_prefix (raises : hevent -> option exn) (l : list hevent) :
  exists rest, l = snd (calls raises l) ++ rest.
Proof.
  destruct (calls_outcome raises l)
    as [[_ ->]|(e & done & rest & -> & Hl & _)]; simpl.
  - exists []. now rewrite app_nil_r.
  - now exists rest.
Qed.

Lemma quiet_id (l : list hevent) :
  Forall (fun e => is_log e = false) l -> quiet l = l.
Proof.
  unfold quiet. induction 1 as [|e l He _ IH]; simpl; [reflexivity|].
  now rewrite He, IH.
Qed.

Lemma calls_quiet (raises : hevent -> option exn) (l : list hevent) :
  Forall (fun e => is_log e = false) l ->
  quiet (snd (calls raises l)) = snd (calls raises l).
Proof.
  intros H. destruct (calls_prefix raises l) as (rest & Hl).
  rewrite Hl in H. apply Forall_app in H as [H _]. now apply quiet_id.
Qed.

(** The calls that send headings write no body, pause for nothing, read
    nothing, log nothing and do not close. *)
Lemma heading_silent (l : list hevent) :
  Forall heading l ->
  quiet l = l /\ written l = [] /\ sleeps l = [] /\ reads l = []
  /\ ~ In HClose l.
Proof.
  unfold quiet, written, sleeps, reads.
  induction 1 as [|e l He _ (Hq & Hw & Hs & Hr & Hc)]; simpl.
  - repeat split; auto.
  - destruct e; try contradiction; simpl; rewrite Hq;
      (repeat split; auto); intros [H|H]; try discriminate; auto.
Qed.

Lemma announce_heading (route : Route) : Forall heading (announce route).
Proof.
  unfold announce. apply Forall_app. split; [repeat constructor|].
  apply Forall_app. split; [|repeat constructor].
  apply Forall_forall. intros e He. apply in_map_iff in He as (kv & <- & _).
  exact I.
Qed.

Lemma response_split (s : Service) (route : Route) :
  response s route = announce route ++ HSleep (delay s) :: body_calls route.
Proof.
  unfold response, announce, body_calls. simpl. now rewrite <- app_assoc.
Qed.

Lemma body_calls_cases (route : Route) :
  (body_calls route = []
   /\ match data route with Some body => body | None => [] end = [])
  \/ (exists body, data route = Some body /\ body <> []
                   /\ body_calls route = [HWrite body]).
Proof.
  unfold body_calls. destruct (data route) as [[|c body]|]; auto.
  right. eexists. repeat split. discriminate.
Qed.

Lemma response_facts (s : Service) (route : Route) :
  quiet (response s route) = response s route
  /\ written (response s route) =
     match data route with Some body => body | None => [] end
  /\ sleeps (response s route) = [delay s]
  /\ reads (response s route) = []
  /\ ~ In HClose (response s route).
Proof.
  rewrite response_split.
  destruct (heading_silent _ (announce_heading route))
    as (Hq & Hw & Hs & Hr & Hc).
  unfold quiet, written, sleeps, reads in *.
  rewrite !filter_app, !flat_map_app, in_app_iff, Hq, Hw, Hs, Hr.
  destruct (body_calls_cases route) as [[-> Hd]|(body & Hd & _ & ->)];
    rewrite Hd; simpl; rewrite ?app_nil_r;
    (repeat split; auto); intros [H|H]; auto;
    simpl in H; intuition discriminate.
Qed.

Lemma response_no_log (s : Service) (route : Route) :
  Forall (fun e => is_log e = false) (response s route).
Proof.
  rewrite response_split. apply Forall_app. split.
  - eapply Forall_impl; [|apply announce_heading].
    intros e He. now destruct e.
  - constructor; [reflexivity|].
    destruct (body_calls_cases route) as [[-> _]|(body & _ & _ & ->)];
      repeat constructor.
Qed.

Lemma set_trace_response (s : Service) (b : bool) (route : Route) :
  response (set_trace s b) route = response s route.
Proof. reflexivity. Qed.

(** The answer of a matched route is sent in full, or a call raises:
    before the pause is over, with only headings sent, or when the body is
    written. *)
Lemma calls_response_cases (raises : hevent -> option exn) (s : Service)
      (route : Route) :
  (all_return raises (response s route)
   /\ calls raises (response s route) = (Ok tt, response s route))
  \/ (exists e done,
        calls raises (response s route) = (Raise e, done)
        /\ ~ all_return raises (response s route)
        /\ (Forall heading done
            \/ (done = announce route ++ [HSleep (delay s)]
                /\ body_calls route <> []))).
Proof.
  destruct (calls_outcome raises (response s route))
    as [?|(e & done & rest & Hc & Hl & Hn)]; [now left|].
  right. exists e, done. split; [assumption|]. split; [assumption|].
  revert Hc. rewrite response_split.
  change (HSleep (delay s) :: body_calls route)
    with ([HSleep (delay s)] ++ body_calls route).
  rewrite !calls_app.
  destruct (calls_outcome raises (announce route))
    as [[_ ->]|(e1 & d1 & r1 & -> & Hl1 & _)]; simpl.
  - unfold call. destruct (raises (HSleep (delay s))); simpl.
    + intros [= _ <-]. left. rewrite app_nil_r. apply announce_heading.
    + destruct (body_calls_cases route) as [[-> _]|(body & _ & _ & ->)];
        simpl; [discriminate|].
      unfold call. destruct (raises (HWrite body)); simpl; [|discriminate].
      intros [= _ <-]. right.
      split; [reflexivity | discriminate].
  - intros [= _ <-]. left. pose proof (announce_heading route) as H.
    rewrite Hl1 in H. now apply Forall_app in H.
Qed.

Lemma get_payload_eq (rt : Runtime) (raises : hevent -> option exn)
      (req : Request) :
  get_payload rt raises req =
  if existsb (String.eqb (command req)) ["POST"; "PUT"; "DELETE"] then
    match py_int rt (match headers_get (request_headers req) "Content-Length"
                     with Some v => PyStr v | None => PyInt 0 end) with
    | Raise e => (Raise e, [])
    | Ok n =>
        if n =? 0 then (Ok None, [])
        else match raises (HRead n) with
             | Some x => (Raise x, [])
             | None => (Ok (Some (rfile req n)), [HRead n])
             end
    end
  else (Ok None, []).
Proof.
  unfold get_payload, call.
  destruct (existsb (String.eqb (command req)) _); [|reflexivity].
  destruct (py_int rt _) as [n|e]; [|reflexivity].
  destruct (n =? 0); simpl; [reflexivity|].
  now destruct (raises (HRead n)).
Qed.

Lemma get_payload_events (rt : Runtime) (raises : hevent -> option exn)
      (req : Request) :
  snd (get_payload rt raises req) = []
  \/ exists n, snd (get_payload rt raises req) = [HRead n].
Proof.
  rewrite get_payload_eq.
  destruct (existsb (String.eqb (command req)) _); simpl; [|now left].
  destruct (py_int rt _) as [n|e]; simpl; [|now left].
  destruct (n =? 0); simpl; [now left|].
  destruct (raises (HRead n)); simpl; [now left | right; eauto].
Qed.

(** [print_info] stops on a request without headers; otherwise it is
    [get_payload] followed by one message to the log. *)
Lemma print_info_eq (rt : Runtime) (repr : pyval -> string)
      (raises : hevent -> option exn) (s : Service) (req : Request)
      (route : Route) :
  (request_headers req = []
   /\ print_info rt repr raises s req route = (Raise ValueError, []))
  \/ (request_headers req <> []
      /\ exists msg : option (list byte) -> string,
           print_info rt repr raises s req route =
           io_bind (get_payload rt raises req) (fun p => logged s (msg p))).
Proof.
  unfold print_info. destruct (request_headers req) as [|hd tl]; simpl.
  - left. split; reflexivity.
  - right. split; [discriminate|]. eexists (fun p => _). reflexivity.
Qed.

(** The events of [print_info]: those of [get_payload], then at most one
    call to the logger. *)
Lemma print_info_events (rt : Runtime) (repr : pyval -> string)
      (raises : hevent -> option exn) (s : Service) (req : Request)
      (route : Route) :
  exists evs logs,
    snd (print_info rt repr raises s req route) = evs ++ logs
    /\ (evs = [] \/ exists n, evs = [HRead n])
    /\ (logs = [] \/ exists msg, trace s = true /\ logs = [HLog msg]).
Proof.
  destruct (print_info_eq rt repr raises s req route)
    as [[_ ->]|(_ & msg & ->)].
  - exists [], []. simpl. auto.
  - rewrite io_bind_snd.
    exists (snd (get_payload rt raises req)). eexists.
    split; [reflexivity|]. split; [apply get_payload_events|].
    destruct (fst (get_payload rt raises req)) as [p|e]; [|now left].
    unfold logged. simpl. rewrite log_cases. destruct (trace s); eauto.
Qed.

Lemma print_info_silent (rt : Runtime) (repr : pyval -> string)
      (raises : hevent -> option exn) (s : Service) (req : Request)
      (route : Route) :
  written (snd (print_info rt repr raises s req route)) = []
  /\ sleeps (snd (print_info rt repr raises s req route)) = []
  /\ ~ In HClose (snd (print_info rt repr raises s req route)).
Proof.
  destruct (print_info_events rt repr raises s req route)
    as (evs & logs & -> & Hevs & Hlogs).
  unfold written, sleeps. rewrite !flat_map_app, in_app_iff.
  destruct Hevs as [->|(n & ->)]; destruct Hlogs as [->|(msg & _ & ->)];
    simpl; intuition discriminate.
Qed.

Lemma print_info_trace (rt : Runtime) (repr : pyval -> string)
      (raises : hevent -> option exn) (s : Service) (b : bool)
      (req : Request) (route : Route) :
  fst (print_info rt repr raises (set_trace s b) req route) =
  fst (print_info rt repr raises s req route)
  /\ quiet (snd (print_info rt repr raises (set_trace s b) req route)) =
     quiet (snd (print_info rt repr raises s req route)).
Proof.
  unfold print_info.
  destruct (max_len _) as [longest|e]; [|split; reflexivity].
  rewrite !io_bind_fst, !io_bind_snd.
  destruct (get_payload rt raises req) as [[payload|e] evs]; simpl;
    [|split; reflexivity].
  split; [reflexivity|]. unfold quiet. rewrite !filter_app, !log_cases.
  simpl. now destruct b, (trace s).
Qed.


Lemma proceed_matched (rt : Runtime) (repr : pyval -> string)
      (raises : hevent -> option exn) (s : Service) (req : Request)
      (route : Route) :
  resolve rt s (command req) (request_path req) = Ok (Some route) ->
  proceed rt repr raises s req =
  io_bind (calls raises (response s route))
    (fun _ => io_bind (print_info rt repr raises s req route)
                (fun _ => call raises HClose)).
Proof. unfold proceed. intros ->. reflexivity. Qed.

Lemma proceed_unmatched (rt : Runtime) (repr : pyval -> string)
      (raises : hevent -> option exn) (s : Service) (req : Request) :
  resolve rt s (command req) (request_path req) = Ok None ->
  exists msg,
    proceed rt repr raises s req =
    io_bind (calls raises [HSendError 404; HEndHeaders])
      (fun _ => logged s msg).
Proof. unfold proceed. intros ->. eexists. reflexivity. Qed.

Lemma proceed_error (rt : Runtime) (repr : pyval -> string)
      (raises : hevent -> option exn) (s : Service) (req : Request)
      (e : exn) :
  resolve rt s (command req) (request_path req) = Raise e ->
  proceed rt repr raises s req = (Raise e, []).
Proof. unfold proceed. intros ->. reflexivity. Qed.

(** What is left of a matched request once the answer is out. *)
Lemma closing_facts (rt : Runtime) (repr : pyval -> string)
      (raises : hevent -> option exn) (s : Service) (req : Request)
      (route : Route) :
  let rest := io_bind (print_info rt repr raises s req route)
                (fun _ => call raises HClose) in
  fst rest =
    match fst (print_info rt repr raises s req route) with
    | Raise e => Raise e
    | Ok _ => match raises HClose with
              | Some x => Raise x
              | None => Ok tt
              end
    end
  /\ written (snd rest) = []
  /\ sleeps (snd rest) = []
  /\ reads (snd rest) = reads (snd (print_info rt repr raises s req route))
  /\ (trace s = false -> quiet (snd rest) = snd rest).
Proof.
  cbv zeta. rewrite io_bind_fst, io_bind_snd.
  destruct (print_info_silent rt repr raises s req route) as (Hw & Hs & _).
  destruct (print_info_events rt repr raises s req route)
    as (evs & logs & Hev & Hevs & Hlogs).
  assert (Hq : trace s = false ->
               quiet (snd (print_info rt repr raises s req route)) =
               snd (print_info rt repr raises s req route)).
  { intros Hoff. rewrite Hev.
    destruct Hevs as [->|(n & ->)];
      destruct Hlogs as [->|(msg & Hon & ->)]; try reflexivity; congruence. }
  unfold written, sleeps, reads, quiet in *.
  rewrite !flat_map_app, !filter_app, Hw, Hs.
  destruct (fst (print_info rt repr raises s req route)) as [[]|e]; simpl.
  - unfold call. destruct (raises HClose); simpl; rewrite ?app_nil_r;
      (repeat split; auto); intros Hoff; now rewrite (Hq Hoff).
  - rewrite ?app_nil_r. repeat split; auto.
Qed.

(** The two ways a matched request goes: a call of the answer raises, or
    the answer is sent in full and the trace and the close follow. *)
Lemma proceed_matched_cases (rt : Runtime) (repr : pyval -> string)
      (raises : hevent -> option exn) (s : Service) (req : Request)
      (route : Route) :
  resolve rt s (command req) (request_path req) = Ok (Some route) ->
  (exists e done,
      proceed rt repr raises s req = (Raise e, done)
      /\ ~ all_return raises (response s route)
      /\ (Forall heading done
          \/ (done = announce route ++ [HSleep (delay s)]
              /\ body_calls route <> [])))
  \/ (all_return raises (response s route)
      /\ fst (proceed rt repr raises s req) =
         fst (io_bind (print_info rt repr raises s req route)
                (fun _ => call raises HClose))
      /\ snd (proceed rt repr raises s req) =
         response s route
         ++ snd (io_bind (print_info rt repr raises s req route)
                   (fun _ => call raises HClose))).
Proof.
  intros E. rewrite (proceed_matched _ _ _ _ _ _ E).
  destruct (calls_response_cases raises s route)
    as [[Hall ->]|(e & done & -> & Hn & Hd)].
  - right. split; [assumption|].
    rewrite io_bind_fst, io_bind_snd. split; reflexivity.
  - left. exists e, done. simpl. auto.
Qed.

(** The observations on a matched request whose answer was cut short. *)
Lemma cut_short (s : Service) (route : Route) (done : list hevent) :
  Forall heading done
  \/ (done = announce route ++ [HSleep (delay s)] /\ body_calls route <> []) ->
  quiet done = done /\ written done = [] /\ reads done = []
  /\ ~ In HClose done
  /\ (sleeps done = [] \/ sleeps done = [delay s]).
Proof.
  intros [H|[-> _]].
  - destruct (heading_silent _ H) as (Hq & Hw & Hs & Hr & Hc). auto 10.
  - destruct (heading_silent _ (announce_heading route))
      as (Hq & Hw & Hs & Hr & Hc).
    unfold quiet, written, sleeps, reads in *.
    rewrite !filter_app, !flat_map_app, in_app_iff, Hq, Hw, Hs, Hr. simpl.
    repeat split; auto. intros [H|[H|[]]]; [auto | discriminate].
Qed.

(** X18. Tracing only adds calls to the logger: with tracing on or off, a
    request has the same outcome and the same calls on the connection, in
    the same order; with tracing off the logger is not called. *)
Theorem logging_observational (rt : Runtime) (repr : pyval -> string)
        (raises : hevent -> option exn) (s : Service) (req : Request)
        (b : bool) :
  fst (proceed rt repr raises (set_trace s b) req) =
  fst (proceed rt repr raises s req)
  /\ quiet (snd (proceed rt repr raises (set_trace s b) req)) =
     quiet (snd (proceed rt repr raises s req))
  /\ (trace s = false ->
      quiet (snd (proceed rt repr raises s req)) =
      snd (proceed rt repr raises s req)).
Proof.
  destruct (resolve rt s (command req) (request_path req))
    as [[route|]|e] eqn:E.
  - assert (E' : resolve rt (set_trace s b) (command req) (request_path req)
                 = Ok (Some route)) by exact E.
    rewrite (proceed_matched _ _ _ _ _ _ E), (proceed_matched _ _ _ _ _ _ E').
    rewrite set_trace_response.
    pose proof (print_info_trace rt repr raises s b req route) as [Hr Hq].
    pose proof (closing_facts rt repr raises s req route)
      as (_ & _ & _ & _ & Hoff).
    pose proof (calls_quiet raises _ (response_no_log s route)) as Hc.
    cbv zeta in Hoff. rewrite !io_bind_fst, !io_bind_snd in *.
    rewrite Hr. unfold quiet in *.
    destruct (fst (calls raises (response s route))) as [[]|e].
    + rewrite !filter_app, Hq, Hc. split; [reflexivity|].
      split; [reflexivity|].
      intros H. rewrite <- filter_app. now rewrite (Hoff H).
    + rewrite !app_nil_r, Hc. repeat split.
  - assert (E' : resolve rt (set_trace s b) (command req) (request_path req)
                 = Ok None) by exact E.
    destruct (proceed_unmatched rt repr raises s req E) as (m1 & ->).
    destruct (proceed_unmatched rt repr raises (set_trace s b) req E')
      as (m2 & ->).
    assert (Hc : quiet (snd (calls raises [HSendError 404; HEndHeaders])) =
                 snd (calls raises [HSendError 404; HEndHeaders]))
      by (apply calls_quiet; repeat constructor).
    remember (calls raises [HSendError 404; HEndHeaders]) as c eqn:Hcdef.
    rewrite !io_bind_fst, !io_bind_snd. unfold quiet in *.
    rewrite !filter_app, Hc. unfold logged. simpl. rewrite !log_cases.
    split; [reflexivity|].
    destruct (fst c).
    + simpl. split; [now destruct b, (trace s) | now intros ->].
    + split; reflexivity.
  - assert (E' : resolve rt (set_trace s b) (command req) (request_path req)
                 = Raise e) by exact E.
    rewrite (proceed_error _ _ _ _ _ _ E), (proceed_error _ _ _ _ _ _ E').
    repeat split.
Qed.

Lemma logging_observational_witness :
  quiet (snd (proceed Demo.rt Samples.show Samples.sound Samples.service
                (Samples.request "GET" "/" [("Host", "localhost:8081")]))) =
  snd (proceed Demo.rt Samples.show Samples.sound
         (set_trace Samples.service false)
         (Samples.request "GET" "/" [("Host", "localhost:8081")])).
Proof.
  destruct (logging_observational Demo.rt Samples.show Samples.sound
              (set_trace Samples.service false)
              (Samples.request "GET" "/" [("Host", "localhost:8081")]) true)
    as (_ & Hq & Hoff).
  rewrite <- (Hoff eq_refl). exact Hq.
Defined.






(** X21. A matched request that carries no header at all never makes the
    handler return: the handler raises, it logs nothing, reads nothing and
    does not close the connection, tracing or not.  When every call of the
    answer returns, the answer is sent in full and the error is the value
    error raised while preparing the trace. *)
Theorem headerless_request (rt : Runtime) (repr : pyval -> string)
        (raises : hevent -> option exn) (s : Service) (req : Request)
        (route : Route) :
  request_headers req = [] ->
  resolve rt s (command req) (request_path req) = Ok (Some route) ->
  (exists e, fst (proceed rt repr raises s req) = Raise e)
  /\ quiet (snd (proceed rt repr raises s req)) =
     snd (proceed rt repr raises s req)
  /\ reads (snd (proceed rt repr raises s req)) = []
  /\ ~ In HClose (snd (proceed rt repr raises s req))
  /\ (all_return raises (response s route) ->
      proceed rt repr raises s req = (Raise ValueError, response s route)).
Proof.
  intros Hh E.
  assert (Hp : print_info rt repr raises s req route = (Raise ValueError, [])).
  { destruct (print_info_eq rt repr raises s req route) as [[_ H]|[H _]];
      [assumption | contradiction]. }
  destruct (proceed_matched_cases rt repr raises s req route E)
    as [(e & done & -> & Hn & Hd)|(Hall & Hf & Hs)].
  - destruct (cut_short s route done Hd) as (Hq & _ & Hr & Hc & _).
    cbn [fst snd]. split; [eauto|]. repeat split; auto. contradiction.
  - rewrite Hp in Hf, Hs. cbn [io_bind fst snd] in Hf, Hs.
    rewrite app_nil_r in Hs.
    destruct (response_facts s route) as (Hq & _ & _ & Hr & Hc).
    rewrite Hs. split; [eauto|]. repeat split; auto.
    intros _. rewrite <- Hs, <- Hf. now destruct (proceed rt repr raises s req).
Qed.

Lemma headerless_request_witness :
  fst (proceed Demo.rt Samples.show Samples.sound Samples.service
         (Samples.request "GET" "/" [])) = Raise ValueError
  /\ written (snd (proceed Demo.rt Samples.show Samples.sound Samples.service
                     (Samples.request "GET" "/" []))) =
     list_byte_of_string "Hello world".
Proof.
  destruct (headerless_request Demo.rt Samples.show Samples.sound
              Samples.service (Samples.request "GET" "/" []) Samples.hello
              eq_refl eq_refl) as (_ & _ & _ & _ & H).
  rewrite (H ltac:(unfold all_return; simpl; repeat constructor)).
  split; reflexivity.
Defined.






(** ** The first invalid route *)

Lemma mapM_first_error {A B} (f : A -> result B) (before after : list A)
      (a : A) (e : exn) :
  (forall x, In x before -> exists b, f x = Ok b) ->
  f a = Raise e ->
  mapM f (before ++ a :: after) = Raise e.
Proof.
  intros Hok Ha. induction before as [|x before IH]; simpl.
  - now rewrite Ha.
  - destruct (Hok x (or_introl eq_refl)) as (b & ->). cbn [bind].
    rewrite IH; [reflexivity|]. intros y Hy. apply Hok. now right.
Qed.

(** X23. When the routes are given as a sequence of sequences and one of
    them is refused, construction raises the error of the first refused
    one, in the order given, whatever the later routes, the port and the
    keyword arguments are. *)
Theorem first_invalid_route_reported (rt : Runtime) (routes port : pyval)
        (kw : kwargs) (before after : list pyval) (item : pyval) (e : exn) :
  is_list_or_tuple routes = true ->
  items routes = before ++ item :: after ->
  forallb is_list_or_tuple (items routes) = true ->
  (forall x, In x before -> exists r, cast rt x = Ok r) ->
  cast rt item = Raise e ->
  Service_init rt routes port kw = Raise e.
Proof.
  intros Hshape Hitems Hall Hok Hbad.
  unfold Service_init, init_routes.
  replace (truthy routes) with true
    by (destruct routes; try discriminate; simpl in *; subst;
        now destruct before).
  rewrite Hshape, Hall, Hitems. simpl.
  now rewrite (mapM_first_error (cast rt) before after item e Hok Hbad).
Qed.

Lemma first_invalid_route_reported_witness :
  Service_init Demo.rt
    (PyList [PyList [PyStr "GET"; PyStr "/a"];
             PyList [PyStr "FETCH"; PyStr "/b"];
             PyList [PyNone; PyStr "/c"]])
    (PyStr "not a port") Demo.no_kwargs = Raise ValueError.
Proof.
  apply (first_invalid_route_reported Demo.rt _ _ _
           [PyList [PyStr "GET"; PyStr "/a"]]
           [PyList [PyNone; PyStr "/c"]]
           (PyList [PyStr "FETCH"; PyStr "/b"]));
    try reflexivity.
  intros x [<-|[]]. eexists. reflexivity.
Defined.
